(** * object_detection/detectron2_training.ipynb

    A shallow embedding of the notebook: the prediction-reformatting
    function [format_detectron2_predictions] (code cell 14) and the
    top-level script made of the other code cells, followed by the
    properties established about them. *)

From Stdlib Require Import Ascii String ZArith Lia Sorted.
From stdpp Require Import base tactics option list gmap strings.

Open Scope Z_scope.
Open Scope nat_scope.

(** ** Python exceptions and fallible computations *)

Inductive PyErr : Type :=
  | IndexError
  | ValueError
  | TypeError
  | KeyError (key : string)
  | AttributeError (attr : string)
  | NameError (name : string).

Inductive result (A : Type) : Type :=
  | Ok (a : A)
  | Err (e : PyErr).
Arguments Ok {A} a.
Arguments Err {A} e.

#[global] Instance result_ret : MRet result := λ A a, Ok a.
#[global] Instance result_bind : MBind result := λ A B f m,
  match m with
  | Ok a => f a
  | Err e => Err e
  end.

(** A [for] loop over [xs] that threads the loop state [s] and stops at the
    first exception. *)
Fixpoint for_each {S A : Type} (body : S → A → result S) (xs : list A) (s : S)
    : result S :=
  match xs with
  | [] => Ok s
  | x :: xs' =>
      match body s x with
      | Ok s' => for_each body xs' s'
      | Err e => Err e
      end
  end.

(** A loop that appends one computed element per iteration to a fresh
    list ([res2 = []; for i in res: ...; res2.append(q)]). *)
Fixpoint collect {A B : Type} (f : A → result B) (xs : list A) : result (list B) :=
  match xs with
  | [] => Ok []
  | x :: xs' =>
      match f x with
      | Ok y =>
          match collect f xs' with
          | Ok ys => Ok (y :: ys)
          | Err e => Err e
          end
      | Err e => Err e
      end
  end.

(** ** Python sequence indexing *)

(** [l[i]] for a Python list of length [len]: indices [0 .. len-1] count
    from the front, [-len .. -1] from the back, anything else raises
    [IndexError]. *)
Definition py_index (len : nat) (i : Z) : option nat :=
  if decide (0 ≤ i < Z.of_nat len)%Z then Some (Z.to_nat i)
  else if decide (- Z.of_nat len ≤ i < 0)%Z then Some (Z.to_nat (Z.of_nat len + i))
  else None.

Definition getitem {A : Type} (l : list A) (i : Z) : result A :=
  match py_index (length l) i ≫= (λ k, l !! k) with
  | Some x => Ok x
  | None => Err IndexError
  end.

(** ** numpy arrays *)

Inductive DType : Type := float32 | float64 | int64.

(** An array is its element type tag, its shape and its row-major buffer. *)
Record ndarray (F : Type) : Type := mk_ndarray {
  dtype : DType;
  shape : list nat;
  buffer : list F;
}.
Arguments mk_ndarray {F} dtype shape buffer.
Arguments dtype {F} _.
Arguments shape {F} _.
Arguments buffer {F} _.

Section Numpy.
Context {F : Type}.

(** [np.array(rows, dtype=dt)] for a list of lists of scalars.  The empty
    list gives the one-dimensional empty array of shape [(0,)]; rows of
    one common length [m] give shape [(len(rows), m)]; ragged rows raise
    [ValueError]. *)
Definition np_array (rows : list (list F)) (dt : DType) : result (ndarray F) :=
  match rows with
  | [] => Ok (mk_ndarray dt [0] [])
  | r :: _ =>
      if forallb (λ r', Nat.eqb (length r') (length r)) rows
      then Ok (mk_ndarray dt [length rows; length r] (concat rows))
      else Err ValueError
  end.

(** [a.reshape(newshape)]: a negative entry stands for the one dimension
    to be inferred; the element count must be preserved.  The element
    type is kept. *)
Definition reshape (a : ndarray F) (newshape : list Z) : result (ndarray F) :=
  let size := Z.of_nat (length (buffer a)) in
  let known := foldr Z.mul 1%Z (filter (λ d, 0 ≤ d)%Z newshape) in
  match filter (λ d, d < 0)%Z newshape with
  | [] =>
      if decide (known = size)
      then Ok (mk_ndarray (dtype a) (Z.to_nat <$> newshape) (buffer a))
      else Err ValueError
  | [_] =>
      if decide (known ≠ 0%Z ∧ (size mod known = 0)%Z)
      then Ok (mk_ndarray (dtype a)
                 ((λ d, Z.to_nat (if decide (d < 0)%Z then size / known else d)%Z)
                    <$> newshape)
                 (buffer a))
      else Err ValueError
  | _ => Err ValueError
  end.

(** Rows of a two-dimensional array, read back from the buffer. *)
Definition nrows (a : ndarray F) : nat := default 0 (shape a !! 0).
Definition ncols (a : ndarray F) : nat := default 0 (shape a !! 1).
Definition array_row (a : ndarray F) (j : nat) : list F :=
  take (ncols a) (drop (j * ncols a) (buffer a)).
Definition array_rows (a : ndarray F) : list (list F) :=
  array_row a <$> seq 0 (nrows a).
End Numpy.

(** ** Detectron2 [Instances] *)

(** The three fields the function reads: [pred_boxes] (the [.tensor] of a
    [Boxes] object, one row per detection), [pred_classes] (an integer
    tensor) and [scores].  The scalar type [F] stands for float32 values:
    [.item()] widens a float32 to a Python float exactly and the float32
    array constructor narrows it back to the same value. *)
Record Instances (F : Type) : Type := mk_Instances {
  pred_boxes : list (list F);
  pred_classes : list Z;
  scores : list F;
}.
Arguments mk_Instances {F} pred_boxes pred_classes scores.
Arguments pred_boxes {F} _.
Arguments pred_classes {F} _.
Arguments scores {F} _.

Section Format.
Context {F : Type}.

(** Invariant of the input type: [Instances] keeps all its fields at one
    length and a [Boxes] tensor has shape [(N, 4)]. *)
Definition instances_wf (ins : Instances F) : Prop :=
  length (pred_boxes ins) = length (pred_classes ins) ∧
  length (scores ins) = length (pred_classes ins) ∧
  Forall (λ b, length b = 4) (pred_boxes ins).

(** Body of the first loop, for loop index [i] and accumulator [res]. *)
Definition append_detection (ins : Instances F) (boxes : list (list F))
    (res : list (list (list F))) (i : nat) : result (list (list (list F))) :=
  pred_class ← getitem (pred_classes ins) (Z.of_nat i);
  probs ← getitem (scores ins) (Z.of_nat i);
  box ← getitem boxes (Z.of_nat i);
  let box_cord := box ++ [probs] in
  match py_index (length res) pred_class with
  | Some k => Ok (alter (λ l, l ++ [box_cord]) k res)
  | None => Err IndexError
  end.

(** Body of the second loop. *)
Definition to_array (num_classes : Z) (i : list (list F)) : result (ndarray F) :=
  if decide (length i = 0)
  then a ← np_array i float32; reshape a [0%Z; num_classes]
  else np_array i float32.

(** [res = [[] for i in range(num_classes)]] builds [num_classes]
    distinct empty lists (none for a negative [num_classes]), so an
    append to one of them is seen by no other. *)
Definition format_detectron2_predictions (ins : Instances F) (num_classes : Z)
    : result (list (ndarray F)) :=
  let boxes := pred_boxes ins in
  let res := replicate (Z.to_nat num_classes) [] in
  res ← for_each (append_detection ins boxes)
          (seq 0 (length (pred_classes ins))) res;
  collect (to_array num_classes) res.
End Format.

(** ** Strings and paths *)

(** [s.replace(old, new)]: every non-overlapping occurrence of [old], found
    left to right, is replaced ([old] is not empty at its one use). *)
Fixpoint replace_from (old new : string) (skip : nat) (s : string) : string :=
  match s with
  | EmptyString => EmptyString
  | String c s' =>
      match skip with
      | S k => replace_from old new k s'
      | O =>
          if String.prefix old s
          then new +:+ replace_from old new (String.length old - 1) s'
          else String c (replace_from old new 0 s')
      end
  end.

Definition str_replace (s old new : string) : string := replace_from old new 0 s.

Definition ends_with_slash (s : string) : bool :=
  match String.get (String.length s - 1) s with
  | Some c => bool_decide (c = "/"%char)
  | None => false
  end.

(** [os.path.join(a, b)] on a POSIX system. *)
Definition os_path_join (a b : string) : string :=
  if String.prefix "/" b then b
  else if bool_decide (a = "") || ends_with_slash a then a +:+ b
  else a +:+ "/" +:+ b.

(** ** The notebook as a script *)

(** Values of the framework's configuration node, keyed by dotted path. *)
Inductive CfgVal : Type :=
  | CStr (s : string)
  | CInt (n : Z)
  | CFloat (literal : string)
  | CTuple (items : list string)
  | CList (items : list Z).

Abbreviation Cfg := (gmap string CfgVal).

Section Notebook.
Context {F : Type}.

(** What the script leaves to the framework and to the file system:
    the defaults returned by [get_cfg()], the model zoo's files, the
    content of [labels.pkl] and the predictor's answer on an image file
    ([predictor(cv2.imread(path))["instances"].to("cpu")]). *)
Variable default_cfg : Cfg.
Variable get_config_file : string → string.
Variable load_yaml : string → Cfg.
Variable get_checkpoint_url : string → string.
Variable labels_pkl : list (gmap string string).
Variable predict : string → result (Instances F).

(** Values bound to global names. *)
Inductive PyVal : Type :=
  | VObj (what : string)
  | VStr (s : string)
  | VRecords (items : list (gmap string string))
  | VRecord (item : gmap string string)
  | VInstances (ins : Instances F)
  | VResults (items : list (list (ndarray F))).

(** Calls into the framework, the shell and the file system, in the order
    the script makes them.  A constructor takes the configuration as it
    is at the call. *)
Inductive Event : Type :=
  | Shell (cmd : string)
  | RegisterCocoInstances (name json_file image_root : string)
  | GetCfg
  | MergeFromFile (path : string)
  | SetCfg (key : string) (v : CfgVal)
  | Makedirs (path : string)
  | NewTrainer (cfg : Cfg)
  | ResumeOrLoad (resume : bool)
  | Train
  | NewCOCOEvaluator (dataset output_dir : string)
  | BuildDetectionTestLoader (cfg : Cfg) (dataset : string)
  | NewPredictor (cfg : Cfg)
  | PickleLoad (file : string)
  | Imread (path : string)
  | CallPredictor (path : string)
  | PickleDump (results : list (list (ndarray F))) (file : string).

(** The kernel: the global namespace, the configuration node [cfg] refers
    to, and the calls made so far. *)
Record Kernel : Type := mk_Kernel {
  globals : gmap string PyVal;
  cfg_node : Cfg;
  trace : list Event;
}.

Definition Py (A : Type) : Type := Kernel → result A * Kernel.

#[global] Instance Py_ret : MRet Py := λ A a k, (Ok a, k).
#[global] Instance Py_bind : MBind Py := λ A B f m k,
  match m k with
  | (Ok a, k') => f a k'
  | (Err e, k') => (Err e, k')
  end.

Definition raise {A : Type} (e : PyErr) : Py A := λ k, (Err e, k).

Definition lift {A : Type} (r : result A) : Py A := λ k, (r, k).

Definition emit (e : Event) : Py unit := λ k,
  (Ok (), mk_Kernel (globals k) (cfg_node k) (trace k ++ [e])).

(** [name = v] at top level. *)
Definition assign (name : string) (v : PyVal) : Py unit := λ k,
  (Ok (), mk_Kernel (<[name := v]> (globals k)) (cfg_node k) (trace k)).

(** Reading a global name. *)
Definition ref (name : string) : Py PyVal := λ k,
  match globals k !! name with
  | Some v => (Ok v, k)
  | None => (Err (NameError name), k)
  end.

Definition ref_str (name : string) : Py string :=
  v ← ref name;
  match v with VStr s => mret s | _ => raise TypeError end.

Fixpoint import_names (names : list string) : Py unit :=
  match names with
  | [] => mret ()
  | n :: rest => assign n (VObj n);; import_names rest
  end.

(** The configuration node behind the name [cfg]. *)
Definition get_node : Py Cfg := λ k, (Ok (cfg_node k), k).
Definition put_node (c : Cfg) : Py unit := λ k,
  (Ok (), mk_Kernel (globals k) c (trace k)).

(** [cfg.KEY = v] and [cfg.KEY]. *)
Definition cfg_set (key : string) (v : CfgVal) : Py unit :=
  _ ← ref "cfg"; c ← get_node;
  put_node (<[key := v]> c);;
  emit (SetCfg key v).

Definition cfg_get (key : string) : Py CfgVal :=
  _ ← ref "cfg"; c ← get_node;
  match c !! key with
  | Some v => mret v
  | None => raise (AttributeError key)
  end.

Definition cfg_get_str (key : string) : Py string :=
  v ← cfg_get key;
  match v with CStr s => mret s | _ => raise TypeError end.

Definition cfg_snapshot : Py Cfg :=
  _ ← ref "cfg"; get_node.

Fixpoint for_in {A : Type} (xs : list A) (body : A → Py unit) : Py unit :=
  match xs with
  | [] => mret ()
  | x :: rest => body x;; for_in rest body
  end.

Definition zoo_yaml : string := "COCO-Detection/faster_rcnn_X_101_32x8d_FPN_3x.yaml".

(** Names bound by the import cell, in order. *)
Definition imported : list string :=
  ["DefaultTrainer"; "get_cfg"; "pickle"; "np"; "os"; "json"; "cv2"; "random";
   "build_detection_test_loader"; "COCOEvaluator"; "inference_on_dataset";
   "model_zoo"; "DefaultPredictor"; "get_cfg"; "Visualizer";
   "MetadataCatalog"; "DatasetCatalog"; "register_coco_instances"].

Definition cell_imports : Py unit := import_names imported.

Definition cell_download : Py unit :=
  emit (Shell "wget -nc https://cleanlab-public.s3.amazonaws.com/ObjectDetectionBenchmarking/DATASET_annotations/instances_val2017_5labels.json");;
  emit (Shell "wget -nc https://cleanlab-public.s3.amazonaws.com/ObjectDetectionBenchmarking/DATASET_annotations/instances_train2017_5labels.json");;
  emit (Shell "wget -nc https://cleanlab-public.s3.amazonaws.com/ObjectDetectionBenchmarking/tutorial_obj/labels.pkl").

Definition cell_register : Py unit :=
  assign "IMAGE_PATH" (VStr "../data/coco/");;
  _ ← ref "os"; image_path ← ref_str "IMAGE_PATH";
  assign "TRAIN_PATH" (VStr (os_path_join image_path "train2017"));;
  _ ← ref "os"; image_path ← ref_str "IMAGE_PATH";
  assign "VAL_PATH" (VStr (os_path_join image_path "val2017"));;
  _ ← ref "register_coco_instances"; train_path ← ref_str "TRAIN_PATH";
  emit (RegisterCocoInstances "my_dataset_train"
          "instances_train2017_5labels.json" train_path);;
  _ ← ref "register_coco_instances"; val_path ← ref_str "VAL_PATH";
  emit (RegisterCocoInstances "my_dataset_val"
          "instances_val2017_5labels.json" val_path).

Definition cell_config : Py unit :=
  _ ← ref "get_cfg";
  emit GetCfg;;
  put_node default_cfg;;
  assign "cfg" (VObj "CfgNode");;
  _ ← ref "cfg"; _ ← ref "model_zoo";
  emit (MergeFromFile (get_config_file zoo_yaml));;
  c ← get_node; put_node (load_yaml (get_config_file zoo_yaml) ∪ c);;
  cfg_set "DATASETS.TRAIN" (CTuple ["my_dataset_train"]);;
  cfg_set "DATASETS.TEST" (CTuple ["my_dataset_val"]);;
  cfg_set "DATALOADER.NUM_WORKERS" (CInt 2);;
  _ ← ref "model_zoo";
  cfg_set "MODEL.WEIGHTS" (CStr (get_checkpoint_url zoo_yaml));;
  cfg_set "SOLVER.IMS_PER_BATCH" (CInt 2);;
  cfg_set "SOLVER.BASE_LR" (CFloat "0.00025");;
  cfg_set "SOLVER.MAX_ITER" (CInt 30000);;
  cfg_set "SOLVER.STEPS" (CList []);;
  cfg_set "MODEL.ROI_HEADS.BATCH_SIZE_PER_IMAGE" (CInt 128);;
  cfg_set "MODEL.ROI_HEADS.NUM_CLASSES" (CInt 5);;
  _ ← ref "os"; output_dir ← cfg_get_str "OUTPUT_DIR";
  emit (Makedirs output_dir).

Definition cell_train : Py unit :=
  _ ← ref "DefaultTrainer"; cfg ← cfg_snapshot;
  emit (NewTrainer cfg);;
  assign "trainer" (VObj "DefaultTrainer");;
  _ ← ref "trainer"; emit (ResumeOrLoad false);;
  _ ← ref "trainer"; emit Train.

Definition cell_predictor : Py unit :=
  _ ← ref "COCOEvaluator";
  emit (NewCOCOEvaluator "my_dataset_val" "../output");;
  assign "evaluator" (VObj "COCOEvaluator");;
  _ ← ref "build_detection_test_loader"; cfg ← cfg_snapshot;
  emit (BuildDetectionTestLoader cfg "my_dataset_val");;
  assign "val_loader" (VObj "DataLoader");;
  _ ← ref "os"; output_dir ← cfg_get_str "OUTPUT_DIR";
  cfg_set "MODEL.WEIGHTS" (CStr (os_path_join output_dir "model_final.pth"));;
  cfg_set "MODEL.ROI_HEADS.SCORE_THRESH_TEST" (CFloat "0.7");;
  _ ← ref "DefaultPredictor"; cfg ← cfg_snapshot;
  emit (NewPredictor cfg);;
  assign "predictor" (VObj "DefaultPredictor").

Definition cell_def_format : Py unit :=
  assign "format_detectron2_predictions" (VObj "function").

(** Body of the loop of the last cell, for the element [i]. *)
Definition predict_image (i : PyVal) : Py unit :=
  assign "i" i;;
  _ ← ref "os"; val_path ← ref_str "VAL_PATH";
  item ← ref "i";
  seg_map ← match item with
            | VRecord d =>
                match d !! "seg_map" with
                | Some s => mret s
                | None => raise (KeyError "seg_map")
                end
            | _ => raise TypeError
            end;
  assign "im_name" (VStr (os_path_join val_path (str_replace seg_map ".png" ".jpg")));;
  _ ← ref "cv2"; im_name ← ref_str "im_name";
  emit (Imread im_name);;
  assign "im" (VObj "image");;
  _ ← ref "predictor"; _ ← ref "im";
  emit (CallPredictor im_name);;
  ins ← lift (predict im_name);
  assign "outputs" (VInstances ins);;
  results ← ref "results";
  _ ← ref "format_detectron2_predictions";
  outputs ← ref "outputs";
  num_classes ← cfg_get "MODEL.ROI_HEADS.NUM_CLASSES";
  match results, outputs, num_classes with
  | VResults rs, VInstances ins, CInt n =>
      arrays ← lift (format_detectron2_predictions ins n);
      assign "results" (VResults (rs ++ [arrays]))
  | _, _, _ => raise TypeError
  end.

Definition cell_predict : Py unit :=
  _ ← ref "pickle";
  emit (PickleLoad "labels.pkl");;
  assign "labels" (VRecords labels_pkl);;
  assign "results" (VResults []);;
  dataset ← ref "dataset";
  match dataset with
  | VRecords items => for_in (VRecord <$> items) predict_image
  | _ => raise TypeError
  end;;
  _ ← ref "pickle"; results ← ref "results";
  match results with
  | VResults rs => emit (PickleDump rs "predictions.pkl")
  | _ => raise TypeError
  end.

(** The code cells, top to bottom: everything up to the definition of
    the reformatting function, then the prediction loop. *)
Definition notebook_setup : Py unit :=
  cell_imports;; cell_download;; cell_register;; cell_config;; cell_train;;
  cell_predictor;; cell_def_format.

Definition notebook : Py unit := notebook_setup;; cell_predict.

(** Running the notebook in a kernel whose namespace is [g]; a fresh
    kernel has [g = ∅]. *)
Definition run_notebook (g : gmap string PyVal) : result unit * Kernel :=
  notebook (mk_Kernel g ∅ []).

(** *** What a run is expected to leave behind *)

(** The configuration after [merge_from_file], at the construction of the
    trainer and at the construction of the predictor. *)
Definition merged_cfg : Cfg := load_yaml (get_config_file zoo_yaml) ∪ default_cfg.

Definition training_cfg : Cfg :=
  <["MODEL.ROI_HEADS.NUM_CLASSES" := CInt 5]>
  (<["MODEL.ROI_HEADS.BATCH_SIZE_PER_IMAGE" := CInt 128]>
  (<["SOLVER.STEPS" := CList []]>
  (<["SOLVER.MAX_ITER" := CInt 30000]>
  (<["SOLVER.BASE_LR" := CFloat "0.00025"]>
  (<["SOLVER.IMS_PER_BATCH" := CInt 2]>
  (<["MODEL.WEIGHTS" := CStr (get_checkpoint_url zoo_yaml)]>
  (<["DATALOADER.NUM_WORKERS" := CInt 2]>
  (<["DATASETS.TEST" := CTuple ["my_dataset_val"]]>
  (<["DATASETS.TRAIN" := CTuple ["my_dataset_train"]]> merged_cfg))))))))).

Definition inference_cfg (output_dir : string) : Cfg :=
  <["MODEL.ROI_HEADS.SCORE_THRESH_TEST" := CFloat "0.7"]>
  (<["MODEL.WEIGHTS" := CStr (os_path_join output_dir "model_final.pth")]>
   training_cfg).

Definition register_events : list Event :=
  [RegisterCocoInstances "my_dataset_train" "instances_train2017_5labels.json"
     "../data/coco/train2017";
   RegisterCocoInstances "my_dataset_val" "instances_val2017_5labels.json"
     "../data/coco/val2017"].

Definition config_events (output_dir : string) : list Event :=
  [GetCfg; MergeFromFile (get_config_file zoo_yaml);
   SetCfg "DATASETS.TRAIN" (CTuple ["my_dataset_train"]);
   SetCfg "DATASETS.TEST" (CTuple ["my_dataset_val"]);
   SetCfg "DATALOADER.NUM_WORKERS" (CInt 2);
   SetCfg "MODEL.WEIGHTS" (CStr (get_checkpoint_url zoo_yaml));
   SetCfg "SOLVER.IMS_PER_BATCH" (CInt 2);
   SetCfg "SOLVER.BASE_LR" (CFloat "0.00025");
   SetCfg "SOLVER.MAX_ITER" (CInt 30000);
   SetCfg "SOLVER.STEPS" (CList []);
   SetCfg "MODEL.ROI_HEADS.BATCH_SIZE_PER_IMAGE" (CInt 128);
   SetCfg "MODEL.ROI_HEADS.NUM_CLASSES" (CInt 5);
   Makedirs output_dir].

Definition train_events : list Event :=
  [NewTrainer training_cfg; ResumeOrLoad false; Train].

Definition predictor_events (output_dir : string) : list Event :=
  [NewCOCOEvaluator "my_dataset_val" "../output";
   BuildDetectionTestLoader training_cfg "my_dataset_val";
   SetCfg "MODEL.WEIGHTS" (CStr (os_path_join output_dir "model_final.pth"));
   SetCfg "MODEL.ROI_HEADS.SCORE_THRESH_TEST" (CFloat "0.7");
   NewPredictor (inference_cfg output_dir)].

Definition download_events : list Event :=
  [Shell "wget -nc https://cleanlab-public.s3.amazonaws.com/ObjectDetectionBenchmarking/DATASET_annotations/instances_val2017_5labels.json";
   Shell "wget -nc https://cleanlab-public.s3.amazonaws.com/ObjectDetectionBenchmarking/DATASET_annotations/instances_train2017_5labels.json";
   Shell "wget -nc https://cleanlab-public.s3.amazonaws.com/ObjectDetectionBenchmarking/tutorial_obj/labels.pkl"].

Definition setup_events (output_dir : string) : list Event :=
  download_events ++ register_events ++ config_events output_dir ++
  train_events ++ predictor_events output_dir.

(** The namespace once [notebook_setup] has run in the namespace [g]. *)
Definition setup_globals (g : gmap string PyVal) : gmap string PyVal :=
  foldl (λ m b, <[b.1 := b.2]> m) g
    (((λ n, (n, VObj n)) <$> imported) ++
     [("IMAGE_PATH", VStr "../data/coco/");
      ("TRAIN_PATH", VStr "../data/coco/train2017");
      ("VAL_PATH", VStr "../data/coco/val2017");
      ("cfg", VObj "CfgNode");
      ("trainer", VObj "DefaultTrainer");
      ("evaluator", VObj "COCOEvaluator");
      ("val_loader", VObj "DataLoader");
      ("predictor", VObj "DefaultPredictor");
      ("format_detectron2_predictions", VObj "function")]).
End Notebook.

(** ** Vocabulary of the statements about [format_detectron2_predictions] *)

Section FormatSpec.
Context {F : Type}.

(** Every predicted class is a valid non-negative index into the
    [num_classes] per-class lists. *)
Definition in_range (ins : Instances F) (num_classes : Z) : Prop :=
  Forall (λ c, 0 ≤ c < num_classes)%Z (pred_classes ins).

(** The row built for detection [i]: its box followed by its score. *)
Definition det_row (ins : Instances F) (i : nat) : option (list F) :=
  b ← pred_boxes ins !! i; s ← scores ins !! i; Some (b ++ [s]).

(** [r] is the four box coordinates of detection [i] followed by its
    confidence score. *)
Definition row_of_detection (ins : Instances F) (i : nat) (r : list F) : Prop :=
  ∃ b s, pred_boxes ins !! i = Some b ∧ scores ins !! i = Some s ∧
         length b = 4 ∧ r = b ++ [s].

(** The per-class list that [res[pred_classes[i]]] designates when [res]
    has [m] entries. *)
Definition bucket (ins : Instances F) (m : nat) (i : nat) : option nat :=
  c ← pred_classes ins !! i; py_index m c.

(** Detections sent to entry [k], in input order. *)
Definition bucket_indices (ins : Instances F) (m k : nat) : list nat :=
  filter (λ i, bucket ins m i = Some k) (seq 0 (length (pred_classes ins))).

(** Detections whose predicted class is [k], in input order. *)
Definition class_indices (ins : Instances F) (k : nat) : list nat :=
  filter (λ i, pred_classes ins !! i = Some (Z.of_nat k))
         (seq 0 (length (pred_classes ins))).

(** [out] groups the detections of [ins] by predicted class: the class of
    every detection is an index of [out], and the rows of the array at
    index [k] are, one for one, the rows of the detections of class [k]. *)
Definition grouped_by_class (ins : Instances F) (out : list (ndarray F)) : Prop :=
  (∀ i c, pred_classes ins !! i = Some c →
          (0 ≤ c)%Z ∧ is_Some (out !! Z.to_nat c)) ∧
  (∀ k arr, out !! k = Some arr →
            Forall2 (row_of_detection ins) (class_indices ins k) (array_rows arr)).

(** [out] has one array per class and an array is empty exactly when its
    class has no detection. *)
Definition one_array_per_class (ins : Instances F) (num_classes : Z)
    (out : list (ndarray F)) : Prop :=
  length out = Z.to_nat num_classes ∧
  ∀ k arr, out !! k = Some arr →
           (nrows arr = 0 ↔ Z.of_nat k ∉ pred_classes ins).


End FormatSpec.

(** ** Example inputs *)

Definition ins_two_classes : Instances Z :=
  mk_Instances [[1;2;3;4];[5;6;7;8];[9;10;11;12]]%Z [1;0;1]%Z [90;80;70]%Z.

Definition ins_class_zero : Instances Z :=
  mk_Instances [[1;2;3;4]]%Z [0]%Z [90]%Z.

Definition ins_class_one : Instances Z :=
  mk_Instances [[1;2;3;4]]%Z [1]%Z [90]%Z.

Definition ins_class_minus_one : Instances Z :=
  mk_Instances [[1;2;3;4]]%Z [-1]%Z [90]%Z.

(** ** Vocabulary of the statements about the script *)

Section NotebookSpec.
Context {F : Type}.

(** The datasets registered along a trace, and the configuration keys
    assigned along it, both in order. *)
Definition registrations (tr : list (Event (F:=F))) : list (string * string * string) :=
  omap (λ e, match e with
             | RegisterCocoInstances name json_file image_root =>
                 Some (name, json_file, image_root)
             | _ => None
             end) tr.

Definition assigned_keys (tr : list (Event (F:=F))) : list string :=
  omap (λ e, match e with SetCfg key _ => Some key | _ => None end) tr.

Definition is_trainer_event (e : Event (F:=F)) : bool :=
  match e with NewTrainer _ | ResumeOrLoad _ | Train => true | _ => false end.

(** Calls made by the last code cell. *)
Definition is_inference_event (e : Event (F:=F)) : bool :=
  match e with
  | PickleLoad _ | Imread _ | CallPredictor _ | PickleDump _ _ => true
  | _ => false
  end.

(** [m] changes the trace only by appending events that satisfy [P]. *)
Definition appends_only {A : Type} (P : Event (F:=F) → bool) (m : Py A) : Prop :=
  ∀ k, ∃ evs, trace (m k).2 = trace k ++ evs ∧ forallb P evs = true.
End NotebookSpec.

(** A small instance of what the script leaves open. *)
Definition demo_cfg : Cfg := {[ "OUTPUT_DIR" := CStr "./output" ]}.
Definition demo_yaml (path : string) : Cfg := ∅.
Definition demo_config_file (name : string) : string := "configs/" +:+ name.
Definition demo_checkpoint_url (name : string) : string := "https://zoo/" +:+ name.
Definition demo_labels : list (gmap string string) :=
  [{[ "seg_map" := "000000397133.png" ]}; {[ "seg_map" := "000000037777.png" ]}].
Definition demo_predict (path : string) : result (Instances Z) := Ok ins_two_classes.

(** ** Vocabulary of the further statements *)

Definition ins_empty : Instances Z := mk_Instances [] [] [].

Definition ins_missing_score : Instances Z :=
  mk_Instances [[1;2;3;4];[5;6;7;8]]%Z [0;0]%Z [90]%Z.

(** The file the last cell reads for a label entry whose [seg_map] is
    [seg_map]. *)
Definition image_path (seg_map : string) : string :=
  os_path_join "../data/coco/val2017" (str_replace seg_map ".png" ".jpg").

Fixpoint mentions (c : ascii) (s : string) : bool :=
  match s with
  | EmptyString => false
  | String c' s' => bool_decide (c' = c) || mentions c s'
  end.

Section NotebookMoreSpec.
Context {F : Type}.

(** The calls the loop of the last cell makes for the label entries
    [items]. *)
Definition image_events (items : list (gmap string string)) : list (Event (F:=F)) :=
  items ≫= λ d, match d !! "seg_map" with
                | Some s => [Imread (image_path s); CallPredictor (image_path s)]
                | None => []
                end.

Definition is_dump (e : Event (F:=F)) : bool :=
  match e with PickleDump _ _ => true | _ => false end.

Definition not_dump (e : Event (F:=F)) : bool := negb (is_dump e).

(** Calls that build or use the predictor, or write the results. *)
Definition uses_predictor (e : Event (F:=F)) : bool :=
  match e with
  | NewPredictor _ | CallPredictor _ | PickleDump _ _ => true
  | _ => false
  end.

(** The configuration keys assigned before training, and those assigned
    before the predictor is built. *)
Definition training_keys : list string :=
  ["DATASETS.TRAIN"; "DATASETS.TEST"; "DATALOADER.NUM_WORKERS"; "MODEL.WEIGHTS";
   "SOLVER.IMS_PER_BATCH"; "SOLVER.BASE_LR"; "SOLVER.MAX_ITER"; "SOLVER.STEPS";
   "MODEL.ROI_HEADS.BATCH_SIZE_PER_IMAGE"; "MODEL.ROI_HEADS.NUM_CLASSES"].

Definition inference_keys : list string :=
  ["MODEL.WEIGHTS"; "MODEL.ROI_HEADS.SCORE_THRESH_TEST"].

(** [m] writes [predictions.pkl] at most once, as its last call, and
    only when it ends without an exception. *)
Definition dumps_last (m : Py (F:=F) unit) : Prop :=
  ∀ k, ∃ evs, trace (m k).2 = trace k ++ evs ∧
    (existsb is_dump evs = false ∨
     ((m k).1 = Ok () ∧
      ∃ evs' rs, evs = evs' ++ [PickleDump rs "predictions.pkl"] ∧
                 existsb is_dump evs' = false)).

(** What the loop of the last cell relies on in the kernel, with the
    results collected so far. *)
Definition loop_ready (k : Kernel (F:=F)) (rs : list (list (ndarray F))) : Prop :=
  globals k !! "os" = Some (VObj "os") ∧
  globals k !! "cv2" = Some (VObj "cv2") ∧
  globals k !! "pickle" = Some (VObj "pickle") ∧
  globals k !! "VAL_PATH" = Some (VStr "../data/coco/val2017") ∧
  globals k !! "predictor" = Some (VObj "DefaultPredictor") ∧
  globals k !! "format_detectron2_predictions" = Some (VObj "function") ∧
  globals k !! "cfg" = Some (VObj "CfgNode") ∧
  globals k !! "results" = Some (VResults rs) ∧
  cfg_node k !! "MODEL.ROI_HEADS.NUM_CLASSES" = Some (CInt 5).
End NotebookMoreSpec.

(** A kernel that already binds [dataset], and the arrays the reformatting
    function returns for [ins_two_classes] and five classes. *)
Definition demo_kernel : gmap string (PyVal (F:=Z)) :=
  {[ "dataset" := VRecords demo_labels ]}.

Definition demo_arrays : list (ndarray Z) :=
  [mk_ndarray float32 [1; 5] [5; 6; 7; 8; 80]%Z;
   mk_ndarray float32 [2; 5] [1; 2; 3; 4; 90; 9; 10; 11; 12; 70]%Z;
   mk_ndarray float32 [0; 5] [];
   mk_ndarray float32 [0; 5] [];
   mk_ndarray float32 [0; 5] []].

(** ** Facts about [format_detectron2_predictions] *)

Section FormatFacts.
Context {F : Type}.
Implicit Types (ins : Instances F) (res : list (list (list F))) (arr : ndarray F).

(** *** The first loop *)

Lemma py_index_nat (len i : nat) :
  py_index len (Z.of_nat i) = if decide (i < len) then Some i else None.
Proof.
  unfold py_index. repeat case_decide; try lia; try done.
  by rewrite Nat2Z.id.
Qed.

Lemma py_index_lt (len : nat) (c : Z) (k : nat) :
  py_index len c = Some k → k < len.
Proof. unfold py_index. repeat case_decide; intros [= <-]; lia. Qed.

Lemma py_index_in_range (len : nat) (c : Z) :
  (0 ≤ c < Z.of_nat len)%Z → py_index len c = Some (Z.to_nat c).
Proof. intros. unfold py_index. by rewrite decide_True. Qed.

Lemma getitem_nat {A} (l : list A) (i : nat) :
  getitem l (Z.of_nat i) =
    match l !! i with Some x => Ok x | None => Err IndexError end.
Proof.
  unfold getitem. rewrite py_index_nat. case_decide as Hi; simpl.
  - done.
  - by rewrite lookup_ge_None_2 by lia.
Qed.

Lemma append_detection_ok ins res i res' :
  append_detection ins (pred_boxes ins) res i = Ok res' →
  ∃ k row, bucket ins (length res) i = Some k ∧ det_row ins i = Some row ∧
           res' = alter (λ l, l ++ [row]) k res.
Proof.
  unfold append_detection, bucket, det_row. rewrite !getitem_nat.
  destruct (pred_classes ins !! i) as [c|]; [|done].
  destruct (scores ins !! i) as [s|]; [|done].
  destruct (pred_boxes ins !! i) as [b|]; [|done]. simpl.
  destruct (py_index (length res) c) as [k|]; [|done].
  intros [= <-]. eauto.
Qed.

Lemma first_loop_ok ins idxs : ∀ res res',
  for_each (append_detection ins (pred_boxes ins)) idxs res = Ok res' →
  length res' = length res ∧
  Forall (λ i, is_Some (det_row ins i)) idxs ∧
  ∀ k, res' !! k =
       (λ l, l ++ omap (det_row ins)
                    (filter (λ i, bucket ins (length res) i = Some k) idxs))
         <$> res !! k.
Proof.
  induction idxs as [|i idxs IH]; intros res res'; simpl.
  - intros [= <-]. split_and!; [done|constructor|]. intros k.
    destruct (res !! k); simpl; [|done]. by rewrite app_nil_r.
  - destruct (append_detection _ _ res i) as [res1|] eqn:Hb; [|done].
    intros Hloop. apply append_detection_ok in Hb as (kk & row & Hk & Hrow & ->).
    apply IH in Hloop as (Hlen & Hsome & Hres). rewrite length_alter in Hlen, Hres.
    split_and!; [done|constructor; by eauto|].
    intros k. rewrite Hres, filter_cons.
    destruct (decide (kk = k)) as [->|Hne].
    + rewrite list_lookup_alter_eq, decide_True by done. simpl. rewrite Hrow.
      destruct (res !! k); simpl; [|done]. by rewrite <-app_assoc.
    + rewrite list_lookup_alter_ne, decide_False by congruence. done.
Qed.



Lemma first_loop_total ins (n : Z) idxs : ∀ res,
  instances_wf ins → in_range ins n →
  Forall (λ i, i < length (pred_classes ins)) idxs →
  length res = Z.to_nat n →
  ∃ res', for_each (append_detection ins (pred_boxes ins)) idxs res = Ok res'.
Proof.
  intros res (Hb & Hs & _) Hr. revert res.
  induction idxs as [|i idxs IH]; intros res Hidx Hlen; simpl; [eauto|].
  apply Forall_cons in Hidx as [Hi Hidx].
  destruct (lookup_lt_is_Some_2 (pred_classes ins) i Hi) as [c Hc].
  destruct (lookup_lt_is_Some_2 (scores ins) i ltac:(lia)) as [s Hsc].
  destruct (lookup_lt_is_Some_2 (pred_boxes ins) i ltac:(lia)) as [b Hbx].
  unfold append_detection at 1. rewrite !getitem_nat, Hc, Hsc, Hbx. simpl.
  assert (0 ≤ c < n)%Z as Hcr.
  { unfold in_range in Hr. rewrite Forall_lookup in Hr. by eapply Hr. }
  rewrite py_index_in_range by lia.
  apply IH; [done|]. by rewrite length_alter.
Qed.

(** *** The second loop *)

Lemma collect_ok {A B} (f : A → result B) xs : ∀ ys,
  collect f xs = Ok ys → Forall2 (λ x y, f x = Ok y) xs ys.
Proof.
  induction xs as [|x xs IH]; intros ys; simpl.
  - intros [= <-]. constructor.
  - destruct (f x) as [y|] eqn:Hx; [|done].
    destruct (collect f xs) as [ys'|]; [|done].
    intros [= <-]. constructor; auto.
Qed.

Lemma collect_total {A B} (f : A → result B) xs :
  Forall (λ x, ∃ y, f x = Ok y) xs → ∃ ys, collect f xs = Ok ys.
Proof.
  induction 1 as [|x xs [y Hy] _ [ys Hys]]; simpl; [eauto|].
  rewrite Hy, Hys. eauto.
Qed.

Lemma forallb_same_length (m : nat) (rows : list (list F)) :
  forallb (λ r', Nat.eqb (length r') m) rows = true ↔
  Forall (λ r, length r = m) rows.
Proof.
  rewrite forallb_forall, Forall_forall. setoid_rewrite Nat.eqb_eq.
  split; intros H r Hr; apply H; by apply list_elem_of_In.
Qed.

Lemma reshape_empty dt (n : Z) arr :
  reshape (mk_ndarray dt [0] (@nil F)) [0%Z; n] = Ok arr →
  (0 ≤ n)%Z ∧ arr = mk_ndarray dt [0; Z.to_nat n] [].
Proof.
  unfold reshape. simpl. rewrite !filter_cons, !filter_nil.
  repeat case_decide; simpl; try lia; try done.
  intros [= <-]. split; [lia|done].
Qed.

Lemma reshape_empty_total dt (n : Z) :
  (0 ≤ n)%Z →
  reshape (mk_ndarray dt [0] (@nil F)) [0%Z; n] = Ok (mk_ndarray dt [0; Z.to_nat n] []).
Proof.
  intros. unfold reshape. simpl. rewrite !filter_cons, !filter_nil.
  repeat case_decide; simpl in *; try lia; try done.
Qed.

Lemma to_array_nil (n : Z) arr :
  to_array n [] = Ok arr → (0 ≤ n)%Z ∧ arr = mk_ndarray float32 [0; Z.to_nat n] [].
Proof. unfold to_array. simpl. apply reshape_empty. Qed.

Lemma to_array_cons (n : Z) r rows arr :
  to_array n (r :: rows) = Ok arr →
  Forall (λ r', length r' = length r) (r :: rows) ∧
  arr = mk_ndarray float32 [length (r :: rows); length r] (concat (r :: rows)).
Proof.
  unfold to_array. rewrite decide_False by done. unfold np_array.
  destruct (forallb _ _) eqn:Hall; [|done].
  intros [= <-]. by apply forallb_same_length in Hall.
Qed.

Lemma to_array_total (n : Z) (rows : list (list F)) (m : nat) :
  (0 ≤ n)%Z → Forall (λ r, length r = m) rows → ∃ arr, to_array n rows = Ok arr.
Proof.
  intros Hn Hrows. destruct rows as [|r rows].
  - unfold to_array. simpl. rewrite reshape_empty_total by done. eauto.
  - unfold to_array. rewrite decide_False by done. unfold np_array.
    assert (forallb (λ r', Nat.eqb (length r') (length r)) (r :: rows) = true) as ->;
      [|eauto].
    apply forallb_same_length. apply Forall_cons in Hrows as Hr.
    destruct Hr as [-> _]. done.
Qed.

Lemma to_array_dtype (n : Z) rows arr :
  to_array n rows = Ok arr → dtype arr = float32.
Proof.
  destruct rows as [|r rows]; intros H.
  - apply to_array_nil in H as [_ ->]. done.
  - apply to_array_cons in H as [_ ->]. done.
Qed.

Lemma to_array_nrows (n : Z) rows arr :
  to_array n rows = Ok arr → nrows arr = length rows.
Proof.
  destruct rows as [|r rows]; intros H.
  - apply to_array_nil in H as [_ ->]. done.
  - apply to_array_cons in H as [_ ->]. done.
Qed.

(** Reading the rows back from a row-major buffer. *)
Lemma rows_of_concat (m : nat) (rows : list (list F)) :
  Forall (λ r, length r = m) rows →
  (λ j, take m (drop (j * m) (concat rows))) <$> seq 0 (length rows) = rows.
Proof.
  induction 1 as [|r rows Hr _ IH]; [done|].
  cbn [length seq fmap list_fmap concat]. rewrite Nat.mul_0_l, drop_0.
  rewrite take_app_length' by done. f_equal.
  rewrite <-fmap_S_seq, <-list_fmap_compose. rewrite <-IH at 2.
  apply list_fmap_ext. intros _ j _. simpl.
  replace (m + j * m) with (length r + j * m) by lia.
  by rewrite drop_app_add.
Qed.

Lemma to_array_rows (n : Z) rows arr :
  to_array n rows = Ok arr → array_rows arr = rows.
Proof.
  destruct rows as [|r rows]; intros H.
  - apply to_array_nil in H as [_ ->]. done.
  - apply to_array_cons in H as [Hall ->].
    unfold array_rows, array_row, nrows, ncols. simpl shape. simpl default.
    by apply (rows_of_concat (length r) (r :: rows)).
Qed.

(** *** The function as a whole *)

Lemma format_ok ins (n : Z) out :
  format_detectron2_predictions ins n = Ok out →
  length out = Z.to_nat n ∧
  Forall (λ i, is_Some (det_row ins i)) (seq 0 (length (pred_classes ins))) ∧
  ∀ k arr, out !! k = Some arr →
    to_array n (omap (det_row ins) (bucket_indices ins (Z.to_nat n) k)) = Ok arr.
Proof.
  unfold format_detectron2_predictions. simpl.
  destruct (for_each _ _ _) as [res|] eqn:Hloop; [|done]. simpl.
  intros Hcol%collect_ok. apply first_loop_ok in Hloop as (Hlen & Hsome & Hres).
  rewrite length_replicate in Hlen, Hres.
  split_and!; [by rewrite <-(Forall2_length _ _ _ Hcol)|done|].
  intros k arr Hk.
  destruct (Forall2_lookup_r _ _ _ _ _ Hcol Hk) as (rows & Hrows & Harr).
  rewrite Hres in Hrows. unfold bucket_indices.
  destruct (replicate _ _ !! k) as [l|] eqn:Hl; [|done].
  apply lookup_replicate in Hl as [-> _]. simpl in Hrows. congruence.
Qed.


Lemma det_row_wf ins i r :
  instances_wf ins → det_row ins i = Some r → row_of_detection ins i r.
Proof.
  intros (_ & _ & Hb). unfold det_row, row_of_detection.
  destruct (pred_boxes ins !! i) as [b|] eqn:Hbi; [|done].
  destruct (scores ins !! i) as [s|]; [|done]. simpl. intros [= <-].
  exists b, s. split_and!; try done.
  rewrite Forall_lookup in Hb. by eapply Hb.
Qed.

Lemma format_total ins (n : Z) :
  instances_wf ins → in_range ins n →
  ∃ out, format_detectron2_predictions ins n = Ok out.
Proof.
  intros Hwf Hr. unfold format_detectron2_predictions. simpl.
  destruct (first_loop_total ins n (seq 0 (length (pred_classes ins)))
              (replicate (Z.to_nat n) []) Hwf Hr) as [res Hloop].
  { apply Forall_seq. intros; lia. }
  { by rewrite length_replicate. }
  rewrite Hloop. simpl. apply collect_total.
  apply first_loop_ok in Hloop as (Hlen & Hsome & Hres).
  rewrite length_replicate in Hlen, Hres.
  apply Forall_lookup. intros k rows Hk.
  assert (k < Z.to_nat n) as Hkn.
  { rewrite <-Hlen. by eapply lookup_lt_Some. }
  apply (to_array_total n rows 5); [lia|].
  rewrite Hres, lookup_replicate_2 in Hk by done. simpl in Hk.
  injection Hk as <-. apply Forall_forall. intros r Hr'.
  apply list_elem_of_omap in Hr' as (i & _ & Hi).
  apply det_row_wf in Hi as (b & s & _ & _ & Hb4 & ->); [|done].
  rewrite length_app. simpl. lia.
Qed.

Lemma omap_all_Some {A B} (f : A → option B) (l : list A) :
  Forall (λ x, is_Some (f x)) l → Forall2 (λ x y, f x = Some y) l (omap f l).
Proof.
  induction 1 as [|x l [y Hy] _ IH]; simpl; [constructor|].
  rewrite Hy. by constructor.
Qed.

Lemma filter_seq_sorted (P : nat → Prop) `{!∀ i, Decision (P i)} (a len : nat) :
  StronglySorted lt (filter P (seq a len)).
Proof.
  revert a. induction len as [|len IH]; intros a; simpl; [constructor|].
  rewrite filter_cons. case_decide; [|apply IH].
  constructor; [apply IH|].
  apply Forall_forall. intros j [_ Hj%elem_of_seq]%list_elem_of_filter. lia.
Qed.

Lemma bucket_in_range ins (n : Z) i :
  in_range ins n → ∀ k : nat,
  bucket ins (Z.to_nat n) i = Some k ↔ pred_classes ins !! i = Some (Z.of_nat k).
Proof.
  intros Hr k. unfold bucket.
  destruct (pred_classes ins !! i) as [c|] eqn:Hc; simpl; [|done].
  assert (0 ≤ c < n)%Z as Hcr.
  { unfold in_range in Hr. rewrite Forall_lookup in Hr. by eapply Hr. }
  rewrite py_index_in_range by lia.
  split; intros [= ?]; f_equal; lia.
Qed.

Lemma bucket_indices_in_range ins (n : Z) k :
  in_range ins n → bucket_indices ins (Z.to_nat n) k = class_indices ins k.
Proof.
  intros Hr. unfold bucket_indices, class_indices.
  apply list_filter_iff. intros i. by apply bucket_in_range.
Qed.

Lemma class_indices_nil ins k :
  length (class_indices ins k) = 0 ↔ Z.of_nat k ∉ pred_classes ins.
Proof.
  unfold class_indices. rewrite length_zero_iff_nil. split.
  - intros Hnil [i Hi]%list_elem_of_lookup.
    assert (i ∈ filter (λ i, pred_classes ins !! i = Some (Z.of_nat k))
              (seq 0 (length (pred_classes ins)))) as Hin.
    { apply list_elem_of_filter. split; [done|]. apply elem_of_seq.
      apply lookup_lt_Some in Hi. lia. }
    rewrite Hnil in Hin. by apply elem_of_nil in Hin.
  - intros Hnot. apply elem_of_nil_inv. intros i [Hi _]%list_elem_of_filter.
    apply Hnot. apply list_elem_of_lookup. eauto.
Qed.
End FormatFacts.

(** ** Properties of [format_detectron2_predictions] *)

Section FormatClaims.
Context {F : Type}.
Implicit Types (ins : Instances F) (arr : ndarray F).

(** Shape of every returned array: a class that received detections gets
    one row of five columns per detection, a class that received none
    gets zero rows of [num_classes] columns. *)
Lemma format_shape ins (n : Z) out k arr :
  instances_wf ins →
  format_detectron2_predictions ins n = Ok out →
  out !! k = Some arr →
  shape arr =
    match bucket_indices ins (Z.to_nat n) k with
    | [] => [0; Z.to_nat n]
    | idx => [length idx; 5]
    end.
Proof.
  intros Hwf (Hlen & Hsome & Hout)%format_ok Hk. specialize (Hout _ _ Hk).
  assert (Forall (λ i, is_Some (det_row ins i)) (bucket_indices ins (Z.to_nat n) k))
    as Hidx.
  { unfold bucket_indices. rewrite Forall_forall in Hsome. apply Forall_forall.
    intros i [_ Hi]%list_elem_of_filter. by apply Hsome. }
  apply omap_all_Some in Hidx.
  destruct Hidx as [|i r idx rows Hr Hrest]; simpl in Hout.
  - by apply to_array_nil in Hout as [_ ->].
  - apply to_array_cons in Hout as [_ ->]. simpl.
    apply Forall2_length in Hrest as ->.
    apply det_row_wf in Hr as (b & s & _ & _ & Hb4 & ->); [|done].
    rewrite length_app. simpl. by rewrite Hb4.
Qed.

(** C2, as amended: for every input whose predicted classes lie in
    [0, num_classes), the function returns, and its result groups the
    detections by predicted class: the array at index [k] holds exactly
    one row per detection of class [k], and that row is the detection's
    four box coordinates followed by its confidence score. *)
Theorem format_groups_by_class ins (n : Z) :
  instances_wf ins → in_range ins n →
  ∃ out, format_detectron2_predictions ins n = Ok out ∧ grouped_by_class ins out.
Proof.
  intros Hwf Hr. destruct (format_total ins n Hwf Hr) as [out Hfmt].
  exists out. split; [done|].
  destruct (format_ok _ _ _ Hfmt) as (Hlen & Hsome & Hout). split.
  - intros i c Hc.
    assert (0 ≤ c < n)%Z as Hcr.
    { unfold in_range in Hr. rewrite Forall_lookup in Hr. by eapply Hr. }
    split; [lia|]. apply lookup_lt_is_Some_2. lia.
  - intros k arr Hk. specialize (Hout _ _ Hk).
    rewrite (to_array_rows _ _ _ Hout), bucket_indices_in_range by done.
    assert (Forall (λ i, is_Some (det_row ins i)) (class_indices ins k)) as Hidx.
    { unfold class_indices. rewrite Forall_forall in Hsome. apply Forall_forall.
      intros i [_ Hi]%list_elem_of_filter. by apply Hsome. }
    apply omap_all_Some in Hidx.
    eapply Forall2_impl; [exact Hidx|]. intros i r. by apply det_row_wf.
Qed.

(** C3, as amended: for every [num_classes >= 0] and every input whose
    predicted classes lie in [0, num_classes), the function returns a list
    of exactly [num_classes] arrays, and the array at index [c] has zero
    rows if and only if no detection has predicted class [c]. *)
Theorem format_one_array_per_class ins (n : Z) :
  (0 ≤ n)%Z → instances_wf ins → in_range ins n →
  ∃ out, format_detectron2_predictions ins n = Ok out ∧
         one_array_per_class ins n out.
Proof.
  intros Hn Hwf Hr. destruct (format_total ins n Hwf Hr) as [out Hfmt].
  exists out. split; [done|].
  destruct (format_ok _ _ _ Hfmt) as (Hlen & Hsome & Hout). split; [done|].
  intros k arr Hk. specialize (Hout _ _ Hk).
  rewrite (to_array_nrows _ _ _ Hout), bucket_indices_in_range by done.
  rewrite <-class_indices_nil.
  assert (Forall (λ i, is_Some (det_row ins i)) (class_indices ins k)) as Hidx.
  { unfold class_indices. rewrite Forall_forall in Hsome. apply Forall_forall.
    intros i [_ Hi]%list_elem_of_filter. by apply Hsome. }
  apply omap_all_Some, Forall2_length in Hidx. by rewrite Hidx.
Qed.


(** C8: for every input whose predicted classes all lie in
    [0, num_classes), the function returns a result: in particular no
    [res[pred_class]] is out of range. *)
Theorem format_total_in_range ins (n : Z) :
  instances_wf ins → in_range ins n →
  Forall (λ c, is_Some (py_index (Z.to_nat n) c)) (pred_classes ins) ∧
  ∃ out, format_detectron2_predictions ins n = Ok out.
Proof.
  intros Hwf Hr. split; [|by apply format_total].
  eapply Forall_impl; [exact Hr|]. intros c Hc. simpl in Hc.
  rewrite py_index_in_range by lia. eauto.
Qed.

(** C9: in every returned array the rows are the rows of the detections
    sent to it, taken in increasing order of their position in the
    input. *)
Theorem format_rows_keep_input_order ins (n : Z) out k arr :
  format_detectron2_predictions ins n = Ok out →
  out !! k = Some arr →
  StronglySorted lt (bucket_indices ins (Z.to_nat n) k) ∧
  Forall2 (λ i r, det_row ins i = Some r)
          (bucket_indices ins (Z.to_nat n) k) (array_rows arr).
Proof.
  intros (Hlen & Hsome & Hout)%format_ok Hk. specialize (Hout _ _ Hk).
  split; [apply filter_seq_sorted|].
  rewrite (to_array_rows _ _ _ Hout). apply omap_all_Some.
  unfold bucket_indices. rewrite Forall_forall in Hsome. apply Forall_forall.
  intros i [_ Hi]%list_elem_of_filter. by apply Hsome.
Qed.

(** C10: every returned array has dtype float32. *)
Theorem format_dtype_float32 ins (n : Z) out arr :
  format_detectron2_predictions ins n = Ok out →
  arr ∈ out → dtype arr = float32.
Proof.
  intros (_ & _ & Hout)%format_ok [k Hk]%list_elem_of_lookup.
  eapply to_array_dtype, Hout, Hk.
Qed.
End FormatClaims.

(** C1 at [num_classes = 3] with one detection of class 0: the array of
    class 0 has shape (1, 5), the arrays of the two classes without
    detections have shape (0, 3). *)
Theorem format_empty_class_columns :
  format_detectron2_predictions ins_class_zero 3
  = Ok [mk_ndarray float32 [1; 5] [1; 2; 3; 4; 90]%Z;
        mk_ndarray float32 [0; 3] [];
        mk_ndarray float32 [0; 3] []].
Proof. reflexivity. Qed.

(** C2 as stated fails: with one class and a detection of class 1 the
    function raises [IndexError]. *)
Lemma format_groups_by_class_counterexample :
  instances_wf ins_class_one ∧
  ¬ ∃ out, format_detectron2_predictions ins_class_one 1 = Ok out ∧
           grouped_by_class ins_class_one out.
Proof.
  split.
  - repeat split; repeat constructor.
  - intros (out & Hfmt & _). discriminate Hfmt.
Qed.

Lemma format_groups_by_class_witness :
  instances_wf ins_two_classes ∧ in_range ins_two_classes 2 ∧
  ∃ out, format_detectron2_predictions ins_two_classes 2 = Ok out ∧
         grouped_by_class ins_two_classes out.
Proof.
  assert (instances_wf ins_two_classes) as Hwf by (repeat split; repeat constructor).
  assert (in_range ins_two_classes 2) as Hr by (repeat constructor; lia).
  split_and!; [done|done|]. exact (format_groups_by_class ins_two_classes 2 Hwf Hr).
Defined.

(** C3 as stated fails: a class index past the end raises [IndexError],
    and a negative one is counted from the end of the list. *)
Lemma format_one_array_per_class_counterexample :
  (instances_wf ins_class_one ∧ (0 ≤ 1)%Z ∧
   ¬ ∃ out, format_detectron2_predictions ins_class_one 1 = Ok out ∧
            one_array_per_class ins_class_one 1 out) ∧
  (instances_wf ins_class_minus_one ∧ (0 ≤ 2)%Z ∧
   ¬ ∃ out, format_detectron2_predictions ins_class_minus_one 2 = Ok out ∧
            one_array_per_class ins_class_minus_one 2 out).
Proof.
  split; (split_and!; [repeat split; repeat constructor|lia|]).
  - intros (out & Hfmt & _). discriminate Hfmt.
  - intros (out & Hfmt & _ & Hrows). injection Hfmt as <-.
    destruct (Hrows 1 _ eq_refl) as [_ Hzero].
    assert (Z.of_nat 1 ∉ pred_classes ins_class_minus_one) as Hnot.
    { intros [H|H]%elem_of_cons; [discriminate H|by apply elem_of_nil in H]. }
    discriminate (Hzero Hnot).
Qed.

Lemma format_one_array_per_class_witness :
  (0 ≤ 2)%Z ∧ instances_wf ins_two_classes ∧ in_range ins_two_classes 2 ∧
  ∃ out, format_detectron2_predictions ins_two_classes 2 = Ok out ∧
         one_array_per_class ins_two_classes 2 out.
Proof.
  assert (0 ≤ 2)%Z as Hn by lia.
  assert (instances_wf ins_two_classes) as Hwf by (repeat split; repeat constructor).
  assert (in_range ins_two_classes 2) as Hr by (repeat constructor; lia).
  split_and!; [done|done|done|].
  exact (format_one_array_per_class ins_two_classes 2 Hn Hwf Hr).
Defined.


Lemma format_total_in_range_witness :
  instances_wf ins_two_classes ∧ in_range ins_two_classes 2 ∧
  Forall (λ c, is_Some (py_index 2 c)) [1; 0; 1]%Z ∧
  ∃ out, format_detectron2_predictions ins_two_classes 2 = Ok out.
Proof.
  assert (instances_wf ins_two_classes) as Hwf by (repeat split; repeat constructor).
  assert (in_range ins_two_classes 2) as Hr by (repeat constructor; lia).
  split_and!; [done|done|..];
    apply (format_total_in_range ins_two_classes 2 Hwf Hr).
Defined.

Lemma format_rows_keep_input_order_witness :
  StronglySorted lt (bucket_indices ins_two_classes 2 1) ∧
  Forall2 (λ i r, det_row ins_two_classes i = Some r)
          (bucket_indices ins_two_classes 2 1)
          [[1; 2; 3; 4; 90]; [9; 10; 11; 12; 70]]%Z.
Proof.
  exact (format_rows_keep_input_order ins_two_classes 2
           [mk_ndarray float32 [1; 5] [5; 6; 7; 8; 80]%Z;
            mk_ndarray float32 [2; 5] [1; 2; 3; 4; 90; 9; 10; 11; 12; 70]%Z]
           1 (mk_ndarray float32 [2; 5] [1; 2; 3; 4; 90; 9; 10; 11; 12; 70]%Z)
           eq_refl eq_refl).
Defined.

Lemma format_dtype_float32_witness :
  dtype (mk_ndarray float32 [0; 3] (@nil Z)) = float32.
Proof.
  apply (format_dtype_float32 ins_class_zero 3
           [mk_ndarray float32 [1; 5] [1; 2; 3; 4; 90]%Z;
            mk_ndarray float32 [0; 3] [];
            mk_ndarray float32 [0; 3] []]).
  - reflexivity.
  - apply list_elem_of_In. simpl. auto.
Defined.

(** ** Facts about the script *)

Section NotebookFacts.
Context {F : Type}.
Variable default_cfg : Cfg.
Variable get_config_file : string → string.
Variable load_yaml : string → Cfg.
Variable get_checkpoint_url : string → string.
Variable labels_pkl : list (gmap string string).
Variable predict : string → result (Instances F).

#[local] Abbreviation merged := (merged_cfg default_cfg get_config_file load_yaml).
#[local] Abbreviation cfg_train :=
  (training_cfg default_cfg get_config_file load_yaml get_checkpoint_url).
#[local] Abbreviation cfg_infer :=
  (inference_cfg default_cfg get_config_file load_yaml get_checkpoint_url).
#[local] Abbreviation events_of_setup :=
  (setup_events (F:=F) default_cfg get_config_file load_yaml get_checkpoint_url).
#[local] Abbreviation run :=
  (run_notebook default_cfg get_config_file load_yaml get_checkpoint_url
     labels_pkl predict).

(** *** Running a computation step by step *)

Lemma run_bind {A B} (m : Py (F:=F) A) (f : A → Py B) k a k1 r :
  m k = (Ok a, k1) → f a k1 = r → (m ≫= f) k = r.
Proof. intros Hm Hf. unfold mbind, Py_bind. by rewrite Hm. Qed.

Lemma run_bind_err {A B} (m : Py (F:=F) A) (f : A → Py B) k e k1 :
  m k = (Err e, k1) → (m ≫= f) k = (Err e, k1).
Proof. intros Hm. unfold mbind, Py_bind. by rewrite Hm. Qed.

Lemma run_ref name v (k : Kernel (F:=F)) :
  globals k !! name = Some v → ref name k = (Ok v, k).
Proof. intros H. unfold ref. by rewrite H. Qed.

Lemma run_ref_err name (k : Kernel (F:=F)) :
  globals k !! name = None → ref name k = (Err (NameError name), k).
Proof. intros H. unfold ref. by rewrite H. Qed.

Lemma run_cfg_get key x v (k : Kernel (F:=F)) :
  globals k !! "cfg" = Some x → cfg_node k !! key = Some v →
  cfg_get key k = (Ok v, k).
Proof.
  intros Hc Hv. unfold cfg_get. eapply run_bind; [by apply run_ref|].
  eapply run_bind; [reflexivity|]. simpl. by rewrite Hv.
Qed.

Ltac solve_lookup :=
  cbn [globals cfg_node];
  repeat lazymatch goal with
    | |- setup_globals _ !! _ = _ =>
        unfold setup_globals; cbn [foldl fmap list_fmap app imported fst snd]
    | |- <[?i:=_]> _ !! ?i = _ => apply lookup_insert_eq
    | |- <[_:=_]> _ !! _ = _ =>
        rewrite lookup_insert_ne by (let H := fresh in intros H; discriminate H)
    | |- _ => eassumption
    end.

Ltac run_py :=
  lazymatch goal with
  | |- mbind _ _ _ = _ =>
      eapply run_bind;
      [run_py | cbv beta iota delta [globals cfg_node trace]; run_py]
  | |- ref _ _ = _ => apply run_ref; solve_lookup
  | |- cfg_get _ _ = _ => eapply run_cfg_get; solve_lookup
  | |- import_names _ _ = _ => cbn [import_names imported]; run_py
  | |- ref_str _ _ = _ => unfold ref_str; run_py
  | |- cfg_set _ _ _ = _ => unfold cfg_set; run_py
  | |- cfg_get_str _ _ = _ => unfold cfg_get_str; run_py
  | |- cfg_snapshot _ = _ => unfold cfg_snapshot; run_py
  | |- cell_imports _ = _ => unfold cell_imports; run_py
  | |- cell_download _ = _ => unfold cell_download; run_py
  | |- cell_register _ = _ => unfold cell_register; run_py
  | |- cell_config _ _ _ _ _ = _ => unfold cell_config; run_py
  | |- cell_train _ = _ => unfold cell_train; run_py
  | |- cell_predictor _ = _ => unfold cell_predictor; run_py
  | |- cell_def_format _ = _ => unfold cell_def_format; run_py
  | |- emit _ _ = _ => reflexivity
  | |- assign _ _ _ = _ => reflexivity
  | |- get_node _ = _ => reflexivity
  | |- put_node _ _ = _ => reflexivity
  | |- mret _ _ = _ => reflexivity
  end.

(** *** The cells before the prediction loop *)

Lemma setup_run g output_dir :
  merged !! "OUTPUT_DIR" = Some (CStr output_dir) →
  notebook_setup (F:=F) default_cfg get_config_file load_yaml get_checkpoint_url
    (mk_Kernel g ∅ [])
  = (Ok (), mk_Kernel (setup_globals g) (cfg_infer output_dir)
              (events_of_setup output_dir)).
Proof.
  intros Hout. unfold merged_cfg in Hout. unfold notebook_setup. run_py.
Qed.

Lemma setup_globals_unbound (g : gmap string (PyVal (F:=F))) :
  setup_globals g !! "dataset" = g !! "dataset".
Proof.
  unfold setup_globals. cbn [foldl fmap list_fmap app imported fst snd].
  by repeat rewrite lookup_insert_ne by (let H := fresh in intros H; discriminate H).
Qed.

(** *** What a computation appends to the trace *)

Lemma appends_bind {A B} P (m : Py (F:=F) A) (f : A → Py B) :
  appends_only P m → (∀ a, appends_only P (f a)) → appends_only P (m ≫= f).
Proof.
  intros Hm Hf k. unfold mbind, Py_bind.
  destruct (Hm k) as (evs1 & E1 & F1). destruct (m k) as [[a|e] k1]; simpl in *.
  - destruct (Hf a k1) as (evs2 & E2 & F2). exists (evs1 ++ evs2).
    rewrite E2, E1, app_assoc, forallb_app, F1, F2. done.
  - by exists evs1.
Qed.

Lemma appends_emit P (e : Event (F:=F)) : P e = true → appends_only P (emit e).
Proof. intros He k. exists [e]. simpl. by rewrite He. Qed.

Lemma appends_silent {A} P (m : Py (F:=F) A) :
  (∀ k, trace (m k).2 = trace k) → appends_only P m.
Proof. intros Hm k. exists []. by rewrite Hm, app_nil_r. Qed.

Lemma appends_ref P name : appends_only (F:=F) P (ref name).
Proof. apply appends_silent. intros k. unfold ref. by destruct (globals k !! name). Qed.

Ltac appends :=
  repeat first
    [ apply appends_bind; [|intros ?]
    | apply appends_emit; reflexivity
    | apply appends_ref
    | apply appends_silent; reflexivity
    | lazymatch goal with
      | |- appends_only _ (match ?x with _ => _ end) => destruct x
      end ].

Lemma appends_predict_image v :
  appends_only is_inference_event (predict_image (F:=F) predict v).
Proof. unfold predict_image, ref_str, cfg_get. appends. Qed.

Lemma appends_for_in {A} P (body : A → Py (F:=F) unit) xs :
  (∀ x, appends_only P (body x)) → appends_only P (for_in xs body).
Proof.
  intros Hb. induction xs as [|x xs IH]; simpl.
  - by apply appends_silent.
  - apply appends_bind; [apply Hb|]. by intros _.
Qed.

Lemma appends_cell_predict :
  appends_only is_inference_event (cell_predict (F:=F) labels_pkl predict).
Proof.
  unfold cell_predict. appends.
  all: try (apply appends_for_in; intros; apply appends_predict_image).
Qed.

Lemma run_after_setup g output_dir :
  merged !! "OUTPUT_DIR" = Some (CStr output_dir) →
  ∃ evs, trace (run g).2 = events_of_setup output_dir ++ evs ∧
         forallb is_inference_event evs = true.
Proof.
  intros Hout. unfold run_notebook, notebook.
  erewrite run_bind; [|by apply setup_run|reflexivity].
  apply (appends_cell_predict (mk_Kernel _ _ _)).
Qed.

Lemma inference_registers_nothing (evs : list (Event (F:=F))) :
  forallb is_inference_event evs = true → registrations evs = [].
Proof.
  induction evs as [|e evs IH]; [done|]. simpl.
  intros [He Hevs]%andb_prop. unfold registrations in *. simpl.
  rewrite IH by done. by destruct e.
Qed.

Lemma inference_assigns_nothing (evs : list (Event (F:=F))) :
  forallb is_inference_event evs = true → assigned_keys evs = [].
Proof.
  induction evs as [|e evs IH]; [done|]. simpl.
  intros [He Hevs]%andb_prop. unfold assigned_keys in *. simpl.
  rewrite IH by done. by destruct e.
Qed.

(** *** Properties of a run *)

(** C5 in a kernel that does not bind [dataset], a fresh one in
    particular: the run trains, builds the predictor, loads [labels.pkl]
    and then stops with [NameError] on the name [dataset]; the predictor
    is called on no image and [predictions.pkl] is not written. *)
Theorem run_stops_at_unbound_dataset g output_dir :
  g !! "dataset" = None →
  merged !! "OUTPUT_DIR" = Some (CStr output_dir) →
  (run_notebook default_cfg get_config_file load_yaml get_checkpoint_url
     labels_pkl predict g).1 = Err (NameError "dataset") ∧
  trace (run_notebook default_cfg get_config_file load_yaml get_checkpoint_url
     labels_pkl predict g).2
  = setup_events default_cfg get_config_file load_yaml get_checkpoint_url output_dir
    ++ [PickleLoad "labels.pkl"].
Proof.
  intros Hg Hout. unfold run_notebook, notebook.
  erewrite run_bind; [|by apply setup_run|reflexivity].
  unfold cell_predict.
  erewrite run_bind; [|run_py|reflexivity].
  erewrite run_bind; [|run_py|reflexivity].
  erewrite run_bind; [|run_py|reflexivity].
  erewrite run_bind; [|run_py|reflexivity].
  erewrite run_bind_err; [|apply run_ref_err; cbn [globals];
    rewrite !lookup_insert_ne by (let H := fresh in intros H; discriminate H);
    by rewrite setup_globals_unbound].
  done.
Qed.

(** C6: whatever the kernel binds beforehand, the calls made before the
    trainer is built register exactly the two datasets
    [my_dataset_train] and [my_dataset_val], each with its annotation
    file and image directory; nothing is registered afterwards; and the
    configuration handed to the trainer names them as training and test
    datasets. *)
Theorem datasets_registered_before_training g output_dir :
  merged !! "OUTPUT_DIR" = Some (CStr output_dir) →
  ∃ pre post,
    trace (run_notebook default_cfg get_config_file load_yaml get_checkpoint_url
     labels_pkl predict g).2
    = pre ++ NewTrainer cfg_train :: post ∧
    existsb is_trainer_event pre = false ∧
    registrations pre =
      [("my_dataset_train", "instances_train2017_5labels.json", "../data/coco/train2017");
       ("my_dataset_val", "instances_val2017_5labels.json", "../data/coco/val2017")] ∧
    registrations post = [] ∧
    cfg_train !! "DATASETS.TRAIN" = Some (CTuple ["my_dataset_train"]) ∧
    cfg_train !! "DATASETS.TEST" = Some (CTuple ["my_dataset_val"]).
Proof.
  intros Hout. destruct (run_after_setup g output_dir Hout) as (evs & Htr & Hevs).
  exists (download_events ++ register_events ++
          config_events get_config_file get_checkpoint_url output_dir),
         ([ResumeOrLoad false; Train] ++
          predictor_events default_cfg get_config_file load_yaml
            get_checkpoint_url output_dir ++ evs).
  split_and!.
  - rewrite Htr. unfold setup_events, train_events.
    by rewrite <-!app_assoc.
  - reflexivity.
  - reflexivity.
  - unfold registrations. rewrite !omap_app.
    fold (registrations evs). by rewrite inference_registers_nothing.
  - unfold training_cfg.
    by rewrite !lookup_insert_ne, lookup_insert_eq
      by (let H := fresh in intros H; discriminate H).
  - unfold training_cfg.
    by rewrite !lookup_insert_ne, lookup_insert_eq
      by (let H := fresh in intros H; discriminate H).
Qed.

(** C7: after [merge_from_file] and before the trainer is built the
    script assigns exactly ten configuration fields, between training and
    the construction of the predictor exactly two more, and none
    afterwards. *)
Theorem config_assignments g output_dir :
  merged !! "OUTPUT_DIR" = Some (CStr output_dir) →
  ∃ pre1 pre2 mid post,
    trace (run_notebook default_cfg get_config_file load_yaml get_checkpoint_url
     labels_pkl predict g).2 =
      (pre1 ++ MergeFromFile (get_config_file zoo_yaml) :: pre2) ++
      NewTrainer cfg_train :: mid ++ NewPredictor (cfg_infer output_dir) :: post ∧
    assigned_keys pre1 = [] ∧
    assigned_keys pre2 =
      ["DATASETS.TRAIN"; "DATASETS.TEST"; "DATALOADER.NUM_WORKERS"; "MODEL.WEIGHTS";
       "SOLVER.IMS_PER_BATCH"; "SOLVER.BASE_LR"; "SOLVER.MAX_ITER"; "SOLVER.STEPS";
       "MODEL.ROI_HEADS.BATCH_SIZE_PER_IMAGE"; "MODEL.ROI_HEADS.NUM_CLASSES"] ∧
    assigned_keys mid = ["MODEL.WEIGHTS"; "MODEL.ROI_HEADS.SCORE_THRESH_TEST"] ∧
    assigned_keys post = [].
Proof.
  intros Hout. destruct (run_after_setup g output_dir Hout) as (evs & Htr & Hevs).
  exists (download_events ++ register_events ++ [GetCfg]),
         (drop 2 (config_events get_config_file get_checkpoint_url output_dir)),
         ([ResumeOrLoad false; Train] ++
          take 4 (predictor_events default_cfg get_config_file load_yaml
                    get_checkpoint_url output_dir)),
         evs.
  split_and!.
  - rewrite Htr. reflexivity.
  - reflexivity.
  - reflexivity.
  - reflexivity.
  - by apply inference_assigns_nothing.
Qed.
End NotebookFacts.

Lemma run_stops_at_unbound_dataset_witness :
  (∅ : gmap string (PyVal (F:=Z))) !! "dataset" = None ∧
  merged_cfg demo_cfg demo_config_file demo_yaml !! "OUTPUT_DIR" = Some (CStr "./output") ∧
  (run_notebook demo_cfg demo_config_file demo_yaml demo_checkpoint_url
     demo_labels demo_predict ∅).1 = Err (NameError "dataset") ∧
  trace (run_notebook demo_cfg demo_config_file demo_yaml demo_checkpoint_url
           demo_labels demo_predict ∅).2
  = setup_events demo_cfg demo_config_file demo_yaml demo_checkpoint_url "./output"
    ++ [PickleLoad "labels.pkl"].
Proof.
  assert ((∅ : gmap string (PyVal (F:=Z))) !! "dataset" = None) as Hg
    by reflexivity.
  assert (merged_cfg demo_cfg demo_config_file demo_yaml !! "OUTPUT_DIR"
          = Some (CStr "./output")) as Hout by (vm_compute; reflexivity).
  split_and!; [done|done|..];
    apply (run_stops_at_unbound_dataset demo_cfg demo_config_file demo_yaml
             demo_checkpoint_url demo_labels demo_predict ∅ "./output" Hg Hout).
Defined.

Lemma datasets_registered_before_training_witness :
  merged_cfg demo_cfg demo_config_file demo_yaml !! "OUTPUT_DIR" = Some (CStr "./output") ∧
  ∃ pre post,
    trace (run_notebook demo_cfg demo_config_file demo_yaml demo_checkpoint_url
             demo_labels demo_predict ∅).2
    = pre ++ NewTrainer (training_cfg demo_cfg demo_config_file demo_yaml
                           demo_checkpoint_url) :: post ∧
    existsb is_trainer_event pre = false ∧
    registrations pre =
      [("my_dataset_train", "instances_train2017_5labels.json", "../data/coco/train2017");
       ("my_dataset_val", "instances_val2017_5labels.json", "../data/coco/val2017")] ∧
    registrations post = [] ∧
    training_cfg demo_cfg demo_config_file demo_yaml demo_checkpoint_url
      !! "DATASETS.TRAIN" = Some (CTuple ["my_dataset_train"]) ∧
    training_cfg demo_cfg demo_config_file demo_yaml demo_checkpoint_url
      !! "DATASETS.TEST" = Some (CTuple ["my_dataset_val"]).
Proof.
  assert (merged_cfg demo_cfg demo_config_file demo_yaml !! "OUTPUT_DIR"
          = Some (CStr "./output")) as Hout by (vm_compute; reflexivity).
  split; [done|].
  exact (datasets_registered_before_training demo_cfg demo_config_file demo_yaml
           demo_checkpoint_url demo_labels demo_predict ∅ "./output" Hout).
Defined.

Lemma config_assignments_witness :
  merged_cfg demo_cfg demo_config_file demo_yaml !! "OUTPUT_DIR" = Some (CStr "./output") ∧
  ∃ pre1 pre2 mid post,
    trace (run_notebook demo_cfg demo_config_file demo_yaml demo_checkpoint_url
             demo_labels demo_predict ∅).2
    = (pre1 ++ MergeFromFile (demo_config_file zoo_yaml) :: pre2) ++
      NewTrainer (training_cfg demo_cfg demo_config_file demo_yaml demo_checkpoint_url)
      :: mid ++
      NewPredictor (inference_cfg demo_cfg demo_config_file demo_yaml
                      demo_checkpoint_url "./output") :: post ∧
    assigned_keys pre1 = [] ∧
    assigned_keys pre2 =
      ["DATASETS.TRAIN"; "DATASETS.TEST"; "DATALOADER.NUM_WORKERS"; "MODEL.WEIGHTS";
       "SOLVER.IMS_PER_BATCH"; "SOLVER.BASE_LR"; "SOLVER.MAX_ITER"; "SOLVER.STEPS";
       "MODEL.ROI_HEADS.BATCH_SIZE_PER_IMAGE"; "MODEL.ROI_HEADS.NUM_CLASSES"] ∧
    assigned_keys mid = ["MODEL.WEIGHTS"; "MODEL.ROI_HEADS.SCORE_THRESH_TEST"] ∧
    assigned_keys post = [].
Proof.
  assert (merged_cfg demo_cfg demo_config_file demo_yaml !! "OUTPUT_DIR"
          = Some (CStr "./output")) as Hout by (vm_compute; reflexivity).
  split; [done|].
  exact (config_assignments demo_cfg demo_config_file demo_yaml
           demo_checkpoint_url demo_labels demo_predict ∅ "./output" Hout).
Defined.

(** ** Further properties of [format_detectron2_predictions] *)

Section FormatMore.
Context {F : Type}.
Implicit Types (ins : Instances F) (res : list (list (list F))) (arr : ndarray F).

Lemma py_index_None (len : nat) (c : Z) :
  (c < - Z.of_nat len ∨ Z.of_nat len ≤ c)%Z → py_index len c = None.
Proof. intros. unfold py_index. repeat case_decide; try lia; done. Qed.

Lemma py_index_negative (len : nat) (c : Z) :
  (- Z.of_nat len ≤ c < 0)%Z → py_index len c = Some (Z.to_nat (Z.of_nat len + c)).
Proof. intros. unfold py_index. repeat case_decide; try lia; done. Qed.

Lemma getitem_err {A} (l : list A) (i : Z) e : getitem l i = Err e → e = IndexError.
Proof. unfold getitem. destruct (_ ≫= _); [done|]. by intros [= <-]. Qed.

Lemma append_detection_err ins boxes res i e :
  append_detection ins boxes res i = Err e → e = IndexError.
Proof.
  unfold append_detection.
  destruct (getitem (pred_classes ins) _) as [c|e1] eqn:H1; simpl;
    [|intros [= <-]; by eapply getitem_err].
  destruct (getitem (scores ins) _) as [s|e2] eqn:H2; simpl;
    [|intros [= <-]; by eapply getitem_err].
  destruct (getitem boxes _) as [b|e3] eqn:H3; simpl;
    [|intros [= <-]; by eapply getitem_err].
  destruct (py_index _ _); [done|]. by intros [= <-].
Qed.

Lemma first_loop_err ins boxes idxs : ∀ res e,
  for_each (append_detection ins boxes) idxs res = Err e → e = IndexError.
Proof.
  induction idxs as [|i idxs IH]; intros res e; simpl; [done|].
  destruct (append_detection _ _ res i) as [res1|e1] eqn:Hb.
  - apply IH.
  - intros [= <-]. by eapply append_detection_err.
Qed.

Lemma first_loop_buckets ins idxs : ∀ res res',
  for_each (append_detection ins (pred_boxes ins)) idxs res = Ok res' →
  Forall (λ i, is_Some (bucket ins (length res) i)) idxs.
Proof.
  induction idxs as [|i idxs IH]; intros res res'; simpl; [constructor|].
  destruct (append_detection _ _ res i) as [res1|] eqn:Hb; [|done].
  intros Hloop. apply append_detection_ok in Hb as (kk & row & Hk & Hrow & ->).
  apply IH in Hloop. rewrite length_alter in Hloop. constructor; eauto.
Qed.

Lemma format_first_loop ins (n : Z) out :
  format_detectron2_predictions ins n = Ok out →
  ∃ res, for_each (append_detection ins (pred_boxes ins))
           (seq 0 (length (pred_classes ins))) (replicate (Z.to_nat n) []) = Ok res ∧
         Forall2 (λ rows arr, to_array n rows = Ok arr) res out.
Proof.
  unfold format_detectron2_predictions. simpl.
  destruct (for_each _ _ _) as [res|]; [|done]. simpl.
  intros Hcol%collect_ok. eauto.
Qed.

Lemma format_first_loop_err ins (n : Z) :
  (∀ res, for_each (append_detection ins (pred_boxes ins))
            (seq 0 (length (pred_classes ins))) (replicate (Z.to_nat n) []) ≠ Ok res) →
  format_detectron2_predictions ins n = Err IndexError.
Proof.
  intros Hno. unfold format_detectron2_predictions. simpl.
  destruct (for_each _ _ _) as [res|e] eqn:Hloop; [by destruct (Hno res)|].
  apply first_loop_err in Hloop as ->. done.
Qed.

(** A predicted class that is not a valid index of the [num_classes]
    per-class lists, counting from either end, makes the call raise
    [IndexError]. *)
Theorem format_class_out_of_range ins (n : Z) :
  Exists (λ c, c < - n ∨ n ≤ c)%Z (pred_classes ins) →
  format_detectron2_predictions ins n = Err IndexError.
Proof.
  intros (c & [i Hi]%list_elem_of_lookup & Hc)%Exists_exists.
  apply format_first_loop_err. intros res Hloop.
  apply first_loop_buckets in Hloop. rewrite length_replicate in Hloop.
  rewrite Forall_forall in Hloop.
  destruct (Hloop i) as [k Hk].
  { apply elem_of_seq. apply lookup_lt_Some in Hi. lia. }
  unfold bucket in Hk. rewrite Hi in Hk. simpl in Hk.
  rewrite py_index_None in Hk; [done|]. lia.
Qed.

(** Fewer scores or boxes than predicted classes make the call raise
    [IndexError]. *)
Theorem format_misaligned_fields ins (n : Z) :
  length (scores ins) < length (pred_classes ins) ∨
  length (pred_boxes ins) < length (pred_classes ins) →
  format_detectron2_predictions ins n = Err IndexError.
Proof.
  intros Hlen. apply format_first_loop_err. intros res Hloop.
  apply first_loop_ok in Hloop as (_ & Hsome & _).
  rewrite Forall_forall in Hsome.
  destruct Hlen as [Hlen|Hlen].
  - destruct (Hsome (length (scores ins))) as [r Hr].
    { apply elem_of_seq. lia. }
    unfold det_row in Hr. destruct (pred_boxes ins !! _); [|done]. simpl in Hr.
    rewrite (lookup_ge_None_2 (scores ins)) in Hr by lia. done.
  - destruct (Hsome (length (pred_boxes ins))) as [r Hr].
    { apply elem_of_seq. lia. }
    unfold det_row in Hr. rewrite (lookup_ge_None_2 (pred_boxes ins)) in Hr by lia. done.
Qed.

Lemma collect_replicate {A B} (f : A → result B) (x : A) (y : B) (m : nat) :
  f x = Ok y → collect f (replicate m x) = Ok (replicate m y).
Proof. intros Hx. induction m as [|m IH]; simpl; [done|]. by rewrite Hx, IH. Qed.

(** Without detections the result is [num_classes] empty arrays of shape
    [(0, num_classes)], and the empty list when [num_classes] is negative. *)
Theorem format_no_detections ins (n : Z) :
  pred_classes ins = [] →
  format_detectron2_predictions ins n
  = Ok (replicate (Z.to_nat n) (mk_ndarray float32 [0; Z.to_nat n] [])).
Proof.
  intros Hnil. unfold format_detectron2_predictions. rewrite Hnil. simpl.
  destruct (decide (0 < n)%Z) as [Hn|Hn].
  - apply collect_replicate. unfold to_array. simpl.
    apply reshape_empty_total. lia.
  - by replace (Z.to_nat n) with 0 by lia.
Qed.

(** Columns of the returned arrays: an array with rows has five columns,
    an array without rows has [num_classes] columns; all are
    two-dimensional. *)
Theorem format_columns ins (n : Z) out arr :
  instances_wf ins →
  format_detectron2_predictions ins n = Ok out →
  arr ∈ out →
  length (shape arr) = 2 ∧
  (0 < nrows arr → ncols arr = 5) ∧
  (nrows arr = 0 → ncols arr = Z.to_nat n).
Proof.
  intros Hwf Hfmt [k Hk]%list_elem_of_lookup.
  pose proof (format_shape ins n out k arr Hwf Hfmt Hk) as Hshape.
  unfold nrows, ncols. rewrite Hshape.
  destruct (bucket_indices ins (Z.to_nat n) k); simpl; split_and!; try done; lia.
Qed.

(** With five classes, the number the notebook configures, every
    returned array has five columns. *)
Theorem format_five_classes ins out arr :
  instances_wf ins →
  format_detectron2_predictions ins 5 = Ok out →
  arr ∈ out → ncols arr = 5.
Proof.
  intros Hwf Hfmt [k Hk]%list_elem_of_lookup.
  pose proof (format_shape ins 5 out k arr Hwf Hfmt Hk) as Hshape.
  unfold ncols. rewrite Hshape.
  by destruct (bucket_indices ins (Z.to_nat 5) k).
Qed.

Lemma length_concat_uniform {A} (m : nat) (rows : list (list A)) :
  Forall (λ r, length r = m) rows → length (concat rows) = length rows * m.
Proof.
  induction 1 as [|r rows Hr _ IH]; [done|].
  simpl. rewrite length_app, IH, Hr. lia.
Qed.

(** Every returned array is consistent: its buffer holds exactly
    rows times columns scalars. *)
Theorem format_buffer_size ins (n : Z) out arr :
  format_detectron2_predictions ins n = Ok out →
  arr ∈ out →
  length (buffer arr) = nrows arr * ncols arr.
Proof.
  intros (_ & _ & Hout)%format_ok [k Hk]%list_elem_of_lookup.
  specialize (Hout _ _ Hk).
  destruct (omap _ _) as [|r rows].
  - by apply to_array_nil in Hout as [_ ->].
  - apply to_array_cons in Hout as [Hall ->].
    unfold nrows, ncols. simpl shape. simpl default. simpl buffer.
    by apply (length_concat_uniform (length r) (r :: rows)).
Qed.

Lemma concat_alter_snoc res k (x : list F) :
  k < length res → concat (alter (λ l, l ++ [x]) k res) ≡ₚ x :: concat res.
Proof.
  revert k. induction res as [|l res IH]; intros [|k] Hk; simpl in Hk; try lia.
  - cbn [alter list_alter concat]. rewrite <-app_assoc. simpl.
    by rewrite <-Permutation_middle.
  - cbn [alter list_alter concat]. fold (alter (λ l, l ++ [x]) k res).
    rewrite IH by lia. by rewrite <-Permutation_middle.
Qed.

Lemma first_loop_perm ins idxs : ∀ res res',
  for_each (append_detection ins (pred_boxes ins)) idxs res = Ok res' →
  concat res' ≡ₚ concat res ++ omap (det_row ins) idxs.
Proof.
  induction idxs as [|i idxs IH]; intros res res'; simpl.
  - intros [= <-]. by rewrite app_nil_r.
  - destruct (append_detection _ _ res i) as [res1|] eqn:Hb; [|done].
    intros Hloop. apply append_detection_ok in Hb as (kk & row & Hk & Hrow & ->).
    apply IH in Hloop. rewrite Hloop, Hrow, concat_alter_snoc.
    + by rewrite <-Permutation_middle.
    + unfold bucket in Hk. destruct (pred_classes ins !! i); [|done].
      by eapply py_index_lt.
Qed.

(** The rows of all returned arrays taken together are the rows of all
    detections, each as often as it occurs in the input. *)
Theorem format_rows_permutation ins (n : Z) out :
  format_detectron2_predictions ins n = Ok out →
  concat (array_rows <$> out)
  ≡ₚ omap (det_row ins) (seq 0 (length (pred_classes ins))).
Proof.
  intros (res & Hloop & Hcol)%format_first_loop.
  apply first_loop_perm in Hloop.
  assert (concat (replicate (Z.to_nat n) (@nil (list F))) = []) as Hnil.
  { induction (Z.to_nat n); simpl; auto. }
  rewrite Hnil in Hloop. simpl in Hloop. rewrite <-Hloop.
  assert (array_rows <$> out = res) as ->; [|done].
  clear Hloop Hnil. induction Hcol as [|rows arr res out Harr _ IH]; [done|].
  cbn [fmap list_fmap]. fold (fmap (M:=list) (array_rows (F:=F))).
  by rewrite (to_array_rows _ _ _ Harr), IH.
Qed.

Lemma first_loop_total_valid ins (n : Z) idxs : ∀ res,
  instances_wf ins →
  Forall (λ c, is_Some (py_index (Z.to_nat n) c)) (pred_classes ins) →
  Forall (λ i, i < length (pred_classes ins)) idxs →
  length res = Z.to_nat n →
  ∃ res', for_each (append_detection ins (pred_boxes ins)) idxs res = Ok res'.
Proof.
  intros res (Hb & Hs & _) Hr. revert res.
  induction idxs as [|i idxs IH]; intros res Hidx Hlen; simpl; [eauto|].
  apply Forall_cons in Hidx as [Hi Hidx].
  destruct (lookup_lt_is_Some_2 (pred_classes ins) i Hi) as [c Hc].
  destruct (lookup_lt_is_Some_2 (scores ins) i ltac:(lia)) as [s Hsc].
  destruct (lookup_lt_is_Some_2 (pred_boxes ins) i ltac:(lia)) as [b Hbx].
  unfold append_detection at 1. rewrite !getitem_nat, Hc, Hsc, Hbx. simpl.
  rewrite Forall_lookup in Hr. destruct (Hr _ _ Hc) as [k Hk].
  rewrite Hlen, Hk. apply IH; [done|]. by rewrite length_alter.
Qed.

Lemma format_total_valid ins (n : Z) :
  instances_wf ins →
  Forall (λ c, is_Some (py_index (Z.to_nat n) c)) (pred_classes ins) →
  ∃ out, format_detectron2_predictions ins n = Ok out.
Proof.
  intros Hwf Hr. unfold format_detectron2_predictions. simpl.
  destruct (first_loop_total_valid ins n (seq 0 (length (pred_classes ins)))
              (replicate (Z.to_nat n) []) Hwf Hr) as [res Hloop].
  { apply Forall_seq. intros; lia. }
  { by rewrite length_replicate. }
  rewrite Hloop. simpl. apply collect_total.
  apply first_loop_ok in Hloop as (Hlen & Hsome & Hres).
  rewrite length_replicate in Hlen, Hres.
  apply Forall_lookup. intros k rows Hk.
  assert (k < Z.to_nat n) as Hkn.
  { rewrite <-Hlen. by eapply lookup_lt_Some. }
  apply (to_array_total n rows 5); [lia|].
  rewrite Hres, lookup_replicate_2 in Hk by done. simpl in Hk.
  injection Hk as <-. apply Forall_forall. intros r Hr'.
  apply list_elem_of_omap in Hr' as (i & _ & Hi).
  apply det_row_wf in Hi as (b & s & _ & _ & Hb4 & ->); [|done].
  rewrite length_app. simpl. lia.
Qed.

(** Negative class indices are accepted and counted from the end: when
    every predicted class lies in [-num_classes, num_classes) the call
    returns, and a detection of class [c < 0] has its row in the array at
    index [num_classes + c]. *)
Theorem format_negative_class_wraps ins (n : Z) :
  instances_wf ins →
  Forall (λ c, - n ≤ c < n)%Z (pred_classes ins) →
  ∃ out, format_detectron2_predictions ins n = Ok out ∧
    ∀ i c, pred_classes ins !! i = Some c → (c < 0)%Z →
      ∃ arr r, out !! Z.to_nat (n + c) = Some arr ∧
               row_of_detection ins i r ∧ r ∈ array_rows arr.
Proof.
  intros Hwf Hr.
  destruct (format_total_valid ins n Hwf) as [out Hfmt].
  { eapply Forall_impl; [exact Hr|]. intros c Hc. simpl in Hc.
    destruct (decide (c < 0)%Z).
    - rewrite py_index_negative by lia. eauto.
    - rewrite py_index_in_range by lia. eauto. }
  exists out. split; [done|]. intros i c Hi Hc.
  destruct (format_ok _ _ _ Hfmt) as (Hlen & Hsome & Hout).
  assert (- n ≤ c < n)%Z as Hcr by (rewrite Forall_lookup in Hr; by eapply Hr).
  destruct (lookup_lt_is_Some_2 out (Z.to_nat (n + c))) as [arr Harr]; [lia|].
  rewrite Forall_forall in Hsome. destruct (Hsome i) as [r Hrow].
  { apply elem_of_seq. apply lookup_lt_Some in Hi. lia. }
  exists arr, r. split_and!; [done|by apply det_row_wf|].
  rewrite (to_array_rows _ _ _ (Hout _ _ Harr)).
  apply list_elem_of_omap. exists i. split; [|done].
  unfold bucket_indices. apply list_elem_of_filter. split.
  - unfold bucket. rewrite Hi. simpl. rewrite py_index_negative by lia.
    f_equal. lia.
  - apply elem_of_seq. apply lookup_lt_Some in Hi. lia.
Qed.
End FormatMore.

Lemma format_class_out_of_range_witness :
  Exists (λ c, c < - 1 ∨ 1 ≤ c)%Z (pred_classes ins_class_one) ∧
  format_detectron2_predictions ins_class_one 1 = Err IndexError.
Proof.
  assert (Exists (λ c, c < - 1 ∨ 1 ≤ c)%Z (pred_classes ins_class_one)) as Hc
    by (apply Exists_cons_hd; lia).
  split; [done|]. exact (format_class_out_of_range ins_class_one 1 Hc).
Defined.

Lemma format_misaligned_fields_witness :
  (length (scores ins_missing_score) < length (pred_classes ins_missing_score) ∨
   length (pred_boxes ins_missing_score) < length (pred_classes ins_missing_score)) ∧
  format_detectron2_predictions ins_missing_score 1 = Err IndexError.
Proof.
  assert (length (scores ins_missing_score) < length (pred_classes ins_missing_score) ∨
          length (pred_boxes ins_missing_score) < length (pred_classes ins_missing_score))
    as Hlen by (left; simpl; lia).
  split; [done|]. exact (format_misaligned_fields ins_missing_score 1 Hlen).
Defined.

Lemma format_no_detections_witness :
  pred_classes ins_empty = [] ∧
  format_detectron2_predictions ins_empty 3
  = Ok (replicate 3 (mk_ndarray float32 [0; 3] [])).
Proof. split; [reflexivity|]. exact (format_no_detections ins_empty 3 eq_refl). Defined.

Lemma format_columns_witness :
  instances_wf ins_class_zero ∧
  length (shape (mk_ndarray float32 [0; 3] (@nil Z))) = 2 ∧
  (0 < nrows (mk_ndarray float32 [0; 3] (@nil Z)) →
   ncols (mk_ndarray float32 [0; 3] (@nil Z)) = 5) ∧
  (nrows (mk_ndarray float32 [0; 3] (@nil Z)) = 0 →
   ncols (mk_ndarray float32 [0; 3] (@nil Z)) = Z.to_nat 3).
Proof.
  assert (instances_wf ins_class_zero) as Hwf by (repeat split; repeat constructor).
  split; [done|].
  apply (format_columns ins_class_zero 3
           [mk_ndarray float32 [1; 5] [1; 2; 3; 4; 90]%Z;
            mk_ndarray float32 [0; 3] [];
            mk_ndarray float32 [0; 3] []] _ Hwf eq_refl).
  apply list_elem_of_In. simpl. auto.
Defined.

Lemma format_five_classes_witness :
  instances_wf ins_class_zero ∧ ncols (mk_ndarray float32 [0; 5] (@nil Z)) = 5.
Proof.
  assert (instances_wf ins_class_zero) as Hwf by (repeat split; repeat constructor).
  split; [done|].
  apply (format_five_classes ins_class_zero
           [mk_ndarray float32 [1; 5] [1; 2; 3; 4; 90]%Z;
            mk_ndarray float32 [0; 5] []; mk_ndarray float32 [0; 5] [];
            mk_ndarray float32 [0; 5] []; mk_ndarray float32 [0; 5] []] _ Hwf eq_refl).
  apply list_elem_of_In. simpl. auto.
Defined.

Lemma format_buffer_size_witness :
  length (buffer (mk_ndarray float32 [2; 5] [1; 2; 3; 4; 90; 9; 10; 11; 12; 70]%Z))
  = nrows (mk_ndarray float32 [2; 5] [1; 2; 3; 4; 90; 9; 10; 11; 12; 70]%Z)
    * ncols (mk_ndarray float32 [2; 5] [1; 2; 3; 4; 90; 9; 10; 11; 12; 70]%Z).
Proof.
  apply (format_buffer_size ins_two_classes 2
           [mk_ndarray float32 [1; 5] [5; 6; 7; 8; 80]%Z;
            mk_ndarray float32 [2; 5] [1; 2; 3; 4; 90; 9; 10; 11; 12; 70]%Z] _ eq_refl).
  apply list_elem_of_In. simpl. auto.
Defined.

Lemma format_rows_permutation_witness :
  concat (array_rows <$>
            [mk_ndarray float32 [1; 5] [5; 6; 7; 8; 80]%Z;
             mk_ndarray float32 [2; 5] [1; 2; 3; 4; 90; 9; 10; 11; 12; 70]%Z])
  ≡ₚ [[1; 2; 3; 4; 90]; [5; 6; 7; 8; 80]; [9; 10; 11; 12; 70]]%Z.
Proof. exact (format_rows_permutation ins_two_classes 2 _ eq_refl). Defined.

Lemma format_negative_class_wraps_witness :
  instances_wf ins_class_minus_one ∧
  Forall (λ c, - 2 ≤ c < 2)%Z (pred_classes ins_class_minus_one) ∧
  ∃ out, format_detectron2_predictions ins_class_minus_one 2 = Ok out ∧
    ∀ i c, pred_classes ins_class_minus_one !! i = Some c → (c < 0)%Z →
      ∃ arr r, out !! Z.to_nat (2 + c) = Some arr ∧
               row_of_detection ins_class_minus_one i r ∧ r ∈ array_rows arr.
Proof.
  assert (instances_wf ins_class_minus_one) as Hwf
    by (repeat split; repeat constructor).
  assert (Forall (λ c, - 2 ≤ c < 2)%Z (pred_classes ins_class_minus_one)) as Hr
    by (repeat constructor; lia).
  split_and!; [done|done|].
  exact (format_negative_class_wraps ins_class_minus_one 2 Hwf Hr).
Defined.

(** ** Further properties of the script *)

Section NotebookMore.
Context {F : Type}.
Variable default_cfg : Cfg.
Variable get_config_file : string → string.
Variable load_yaml : string → Cfg.
Variable get_checkpoint_url : string → string.
Variable labels_pkl : list (gmap string string).
Variable predict : string → result (Instances F).

Lemma run_lift {A} (r : result A) (a : A) (k : Kernel (F:=F)) :
  r = Ok a → lift r k = (Ok a, k).
Proof. by intros ->. Qed.

Ltac find_lookup :=
  cbn [globals cfg_node];
  repeat lazymatch goal with
    | |- setup_globals _ !! _ = _ =>
        unfold setup_globals; cbn [foldl fmap list_fmap app imported fst snd]
    | |- <[?i:=_]> _ !! ?i = _ => apply lookup_insert_eq
    | |- <[_:=_]> _ !! _ = _ =>
        rewrite lookup_insert_ne by (let H := fresh in intros H; discriminate H)
    | |- _ => eassumption
    end.

Ltac exec :=
  lazymatch goal with
  | |- mbind _ _ _ = _ =>
      eapply run_bind;
      [exec | cbv beta iota delta [globals cfg_node trace]; exec]
  | |- ref _ _ = _ => apply run_ref; find_lookup
  | |- cfg_get _ _ = _ => eapply run_cfg_get; find_lookup
  | |- ref_str _ _ = _ => unfold ref_str; exec
  | |- lift _ _ = _ => apply run_lift; eassumption
  | |- (match ?x with _ => _ end) _ = _ =>
      match goal with H : x = _ |- _ => rewrite H end; exec
  | |- emit _ _ = _ => reflexivity
  | |- assign _ _ _ = _ => reflexivity
  | |- mret _ _ = _ => reflexivity
  end.

(** *** The prediction loop *)

Lemma predict_image_step (k : Kernel (F:=F)) rs d s ins out :
  loop_ready k rs →
  d !! "seg_map" = Some s →
  predict (image_path s) = Ok ins →
  format_detectron2_predictions ins 5 = Ok out →
  ∃ k', predict_image predict (VRecord d) k = (Ok (), k') ∧
        loop_ready k' (rs ++ [out]) ∧ cfg_node k' = cfg_node k ∧
        trace k' = trace k ++ [Imread (image_path s); CallPredictor (image_path s)].
Proof.
  intros (Hos & Hcv & Hpk & Hval & Hpred & Hfn & Hcfg & Hres & Hnum) Hseg Hins Hfmt.
  unfold image_path in *. destruct k as [g c tr]. cbn [globals cfg_node trace] in *.
  eexists. split; [unfold predict_image; exec|].
  split_and!; [|done|by rewrite <-app_assoc].
  unfold loop_ready. cbn [globals cfg_node].
  split_and!; try done; find_lookup.
Qed.

Lemma predict_loop (items : list (gmap string string)) outs : ∀ (k : Kernel (F:=F)) rs,
  loop_ready k rs →
  Forall2 (λ d out, ∃ s ins, d !! "seg_map" = Some s ∧
                             predict (image_path s) = Ok ins ∧
                             format_detectron2_predictions ins 5 = Ok out)
          items outs →
  ∃ k', for_in (VRecord <$> items) (predict_image predict) k = (Ok (), k') ∧
        loop_ready k' (rs ++ outs) ∧ cfg_node k' = cfg_node k ∧
        trace k' = trace k ++ image_events items.
Proof.
  intros k rs Hk Hall. revert k rs Hk.
  induction Hall as [|d out items outs (s & ins & Hseg & Hins & Hfmt) _ IH];
    intros k rs Hk.
  - exists k. by rewrite !app_nil_r.
  - destruct (predict_image_step k rs d s ins out Hk Hseg Hins Hfmt)
      as (k1 & Hrun1 & Hk1 & Hc1 & Htr1).
    destruct (IH k1 (rs ++ [out]) Hk1) as (k2 & Hrun2 & Hk2 & Hc2 & Htr2).
    exists k2. split_and!.
    + cbn [fmap list_fmap for_in]. fold (fmap (M:=list) (VRecord (F:=F))).
      eapply run_bind; [exact Hrun1|exact Hrun2].
    + by rewrite <-app_assoc in Hk2.
    + congruence.
    + rewrite Htr2, Htr1, <-app_assoc. f_equal.
      unfold image_events. cbn [mbind list_bind]. by rewrite Hseg.
Qed.

Lemma setup_globals_ready g output_dir rs tr :
  loop_ready
    (mk_Kernel (<["results" := VResults rs]>
                  (<["labels" := VRecords labels_pkl]> (setup_globals (F:=F) g)))
       (inference_cfg default_cfg get_config_file load_yaml get_checkpoint_url
          output_dir)
       tr) rs.
Proof.
  unfold loop_ready. cbn [globals cfg_node].
  split_and!; try (find_lookup; fail).
  unfold inference_cfg, training_cfg. find_lookup.
Qed.

(** In a kernel that binds [dataset] to label entries, a run in which
    the predictor answers on every image and each answer can be
    reformatted for five classes ends normally: after training and
    building the predictor it reads and predicts the images in order and
    finally writes the reformatted predictions, one per image in the same
    order, to [predictions.pkl]. *)
Theorem run_with_dataset_bound g items outs output_dir :
  g !! "dataset" = Some (VRecords items) →
  merged_cfg default_cfg get_config_file load_yaml !! "OUTPUT_DIR"
    = Some (CStr output_dir) →
  Forall2 (λ d out, ∃ s ins, d !! "seg_map" = Some s ∧
                             predict (image_path s) = Ok ins ∧
                             format_detectron2_predictions ins 5 = Ok out)
          items outs →
  (run_notebook default_cfg get_config_file load_yaml get_checkpoint_url
     labels_pkl predict g).1 = Ok () ∧
  trace (run_notebook default_cfg get_config_file load_yaml get_checkpoint_url
           labels_pkl predict g).2
  = setup_events default_cfg get_config_file load_yaml get_checkpoint_url output_dir
    ++ [PickleLoad "labels.pkl"] ++ image_events items
    ++ [PickleDump outs "predictions.pkl"].
Proof.
  intros Hg Hout Hall.
  destruct (predict_loop items outs _ []
              (setup_globals_ready g output_dir []
                 (setup_events default_cfg get_config_file load_yaml
                    get_checkpoint_url output_dir ++ [PickleLoad "labels.pkl"]))
              Hall) as (k' & Hrun & Hready & Hnode & Htr).
  destruct Hready as (Hos & Hcv & Hpk & Hval & Hpred & Hfn & Hcfg & Hres & Hnum).
  destruct k' as [g' c' tr']. cbn [globals cfg_node trace] in *.
  unfold run_notebook, notebook.
  erewrite run_bind; [|by apply setup_run|reflexivity].
  unfold cell_predict.
  erewrite run_bind; [|exec|reflexivity].
  erewrite run_bind; [|exec|reflexivity].
  erewrite run_bind; [|exec|reflexivity].
  erewrite run_bind; [|exec|reflexivity].
  cbv beta iota delta [globals cfg_node trace].
  erewrite run_bind; [|apply run_ref; cbn [globals];
    rewrite !lookup_insert_ne by (let H := fresh in intros H; discriminate H);
    rewrite setup_globals_unbound; exact Hg|reflexivity].
  cbv beta iota.
  erewrite run_bind; [|exact Hrun|reflexivity].
  erewrite run_bind; [|exec|reflexivity].
  erewrite run_bind; [|exec|reflexivity].
  cbv beta iota. cbn [emit globals cfg_node trace fst snd].
  split; [done|]. rewrite Htr. by rewrite <-!app_assoc.
Qed.

(** *** Persisting the results *)

Lemma existsb_not_dump (evs : list (Event (F:=F))) :
  forallb not_dump evs = true → existsb is_dump evs = false.
Proof.
  induction evs as [|e evs IH]; [done|]. simpl.
  intros [He Hevs]%andb_prop. unfold not_dump in He.
  rewrite IH by done. by destruct (is_dump e).
Qed.

Lemma existsb_dump_elem (evs : list (Event (F:=F))) rs f :
  existsb is_dump evs = false → PickleDump rs f ∉ evs.
Proof.
  induction evs as [|e evs IH]; simpl.
  - intros _ []%elem_of_nil.
  - intros [He Hevs]%orb_false_elim [<-|Hin]%elem_of_cons; [done|by apply IH].
Qed.

Lemma dumps_last_bind {A} (m : Py (F:=F) A) (f : A → Py unit) :
  appends_only not_dump m → (∀ a, dumps_last (f a)) → dumps_last (m ≫= f).
Proof.
  intros Hm Hf k. unfold mbind, Py_bind.
  destruct (Hm k) as (evs1 & E1 & F1%existsb_not_dump).
  destruct (m k) as [[a|e] k1]; simpl in *.
  - destruct (Hf a k1) as (evs2 & E2 & [F2|(Hok & evs' & rs & -> & F2)]).
    + exists (evs1 ++ evs2). rewrite E2, E1. split; [by rewrite <-!app_assoc|].
      left. by rewrite existsb_app, F1, F2.
    + exists (evs1 ++ evs' ++ [PickleDump rs "predictions.pkl"]).
      rewrite E2, E1. split; [by rewrite <-!app_assoc|]. right. split; [done|].
      exists (evs1 ++ evs'), rs. split; [by rewrite <-!app_assoc|].
      by rewrite existsb_app, F1, F2.
  - exists evs1. split; [done|]. by left.
Qed.

Ltac appends :=
  repeat first
    [ apply appends_bind; [|intros ?]
    | apply appends_emit; reflexivity
    | apply appends_ref
    | apply appends_silent; reflexivity
    | lazymatch goal with
      | |- appends_only _ (match ?x with _ => _ end) => destruct x
      end ].

Lemma predict_image_no_dump v :
  appends_only not_dump (predict_image (F:=F) predict v).
Proof. unfold predict_image, ref_str, cfg_get. appends. Qed.

Lemma cell_predict_dumps_last : dumps_last (cell_predict (F:=F) labels_pkl predict).
Proof.
  unfold cell_predict.
  apply dumps_last_bind; [appends|intros _].
  apply dumps_last_bind; [appends|intros _].
  apply dumps_last_bind; [appends|intros _].
  apply dumps_last_bind; [appends|intros _].
  apply dumps_last_bind; [appends|intros dataset].
  apply dumps_last_bind.
  { destruct dataset; try (appends; fail).
    apply appends_for_in. intros. apply predict_image_no_dump. }
  intros _.
  apply dumps_last_bind; [appends|intros _].
  apply dumps_last_bind; [appends|intros results].
  intros k. destruct results; try (exists []; rewrite app_nil_r; by split; [|left]).
  exists [PickleDump items "predictions.pkl"]. split; [done|]. right.
  split; [done|]. by exists [], items.
Qed.

(** Whatever the kernel binds and whatever the predictor answers,
    [predictions.pkl] is written only by a run that ends without an
    exception, and then as the very last call: a failure on any image
    leaves nothing written. *)
Theorem predictions_written_last g output_dir rs f :
  merged_cfg default_cfg get_config_file load_yaml !! "OUTPUT_DIR"
    = Some (CStr output_dir) →
  PickleDump rs f ∈ trace (run_notebook default_cfg get_config_file load_yaml
                             get_checkpoint_url labels_pkl predict g).2 →
  (run_notebook default_cfg get_config_file load_yaml get_checkpoint_url
     labels_pkl predict g).1 = Ok () ∧
  f = "predictions.pkl" ∧
  last (trace (run_notebook default_cfg get_config_file load_yaml
                 get_checkpoint_url labels_pkl predict g).2)
  = Some (PickleDump rs f).
Proof.
  intros Hout. unfold run_notebook, notebook.
  erewrite run_bind; [|by apply setup_run|reflexivity].
  destruct (cell_predict_dumps_last (mk_Kernel (setup_globals g)
              (inference_cfg default_cfg get_config_file load_yaml
                 get_checkpoint_url output_dir)
              (setup_events default_cfg get_config_file load_yaml
                 get_checkpoint_url output_dir)))
    as (evs & -> & Hevs).
  cbn [trace]. intros [Hin|Hin]%elem_of_app.
  { by eapply existsb_dump_elem in Hin. }
  destruct Hevs as [Hno|(Hok & evs' & rs' & -> & Hno)].
  { by eapply existsb_dump_elem in Hin. }
  apply elem_of_app in Hin as [Hin|Hin].
  { by eapply existsb_dump_elem in Hin. }
  apply list_elem_of_singleton in Hin as [= -> ->].
  split_and!; [done|done|]. by rewrite !app_assoc, last_snoc.
Qed.

(** *** Order of training and prediction *)

Lemma inference_not_trainer (evs : list (Event (F:=F))) :
  forallb is_inference_event evs = true → existsb is_trainer_event evs = false.
Proof.
  induction evs as [|e evs IH]; [done|]. simpl.
  intros [He Hevs]%andb_prop. rewrite IH by done. by destruct e.
Qed.

(** In every run the predictor is built after training has returned and
    from the weights training leaves in the output directory: nothing
    before the end of training builds or calls a predictor or writes
    results, and nothing after it trains again. *)
Theorem predictor_built_after_training g output_dir :
  merged_cfg default_cfg get_config_file load_yaml !! "OUTPUT_DIR"
    = Some (CStr output_dir) →
  ∃ pre cfg post,
    trace (run_notebook default_cfg get_config_file load_yaml get_checkpoint_url
             labels_pkl predict g).2
    = pre ++ [Train] ++ post ∧
    existsb uses_predictor pre = false ∧
    existsb is_trainer_event post = false ∧
    NewPredictor cfg ∈ post ∧
    cfg !! "MODEL.WEIGHTS" = Some (CStr (os_path_join output_dir "model_final.pth")).
Proof.
  intros Hout. destruct (run_after_setup default_cfg get_config_file load_yaml
    get_checkpoint_url labels_pkl predict g output_dir Hout) as (evs & Htr & Hevs).
  exists (download_events ++ register_events ++
          config_events get_config_file get_checkpoint_url output_dir ++
          [NewTrainer (training_cfg default_cfg get_config_file load_yaml
                         get_checkpoint_url); ResumeOrLoad false]),
         (inference_cfg default_cfg get_config_file load_yaml get_checkpoint_url
            output_dir),
         (predictor_events default_cfg get_config_file load_yaml
            get_checkpoint_url output_dir ++ evs).
  split_and!.
  - rewrite Htr. unfold setup_events, train_events.
    rewrite <-!app_assoc. reflexivity.
  - reflexivity.
  - rewrite existsb_app. rewrite (inference_not_trainer evs) by done. reflexivity.
  - apply elem_of_app. left. unfold predictor_events.
    do 4 apply list_elem_of_further. apply list_elem_of_here.
  - unfold inference_cfg.
    rewrite lookup_insert_ne by (let H := fresh in intros H; discriminate H).
    apply lookup_insert_eq.
Qed.

(** *** The configurations handed to the framework *)

Lemma lookup_training_cfg key :
  key ∉ training_keys →
  training_cfg default_cfg get_config_file load_yaml get_checkpoint_url !! key
  = merged_cfg default_cfg get_config_file load_yaml !! key.
Proof.
  intros Hkey. unfold training_cfg.
  repeat (rewrite lookup_insert_ne;
          [|intros <-; apply Hkey; unfold training_keys;
            repeat first [apply list_elem_of_here | apply list_elem_of_further]]).
  done.
Qed.

(** In every run the trainer gets the merged configuration (a setting of
    the model-zoo file wins over a default) changed in the ten assigned
    keys only, and the predictor gets the trainer's configuration changed
    in [MODEL.WEIGHTS] and [MODEL.ROI_HEADS.SCORE_THRESH_TEST] only; the
    trainer starts from the model-zoo checkpoint and both work with five
    classes. *)
Theorem configurations_handed_over g output_dir :
  merged_cfg default_cfg get_config_file load_yaml !! "OUTPUT_DIR"
    = Some (CStr output_dir) →
  ∃ cfg_t cfg_p,
    NewTrainer cfg_t ∈ trace (run_notebook default_cfg get_config_file load_yaml
                                get_checkpoint_url labels_pkl predict g).2 ∧
    NewPredictor cfg_p ∈ trace (run_notebook default_cfg get_config_file load_yaml
                                  get_checkpoint_url labels_pkl predict g).2 ∧
    (∀ key, key ∉ training_keys →
       cfg_t !! key = match load_yaml (get_config_file zoo_yaml) !! key with
                      | Some v => Some v
                      | None => default_cfg !! key
                      end) ∧
    (∀ key, key ∉ inference_keys → cfg_p !! key = cfg_t !! key) ∧
    cfg_t !! "MODEL.WEIGHTS" = Some (CStr (get_checkpoint_url zoo_yaml)) ∧
    cfg_t !! "MODEL.ROI_HEADS.NUM_CLASSES" = Some (CInt 5) ∧
    cfg_p !! "MODEL.ROI_HEADS.NUM_CLASSES" = Some (CInt 5).
Proof.
  intros Hout. destruct (run_after_setup default_cfg get_config_file load_yaml
    get_checkpoint_url labels_pkl predict g output_dir Hout) as (evs & Htr & Hevs).
  exists (training_cfg default_cfg get_config_file load_yaml get_checkpoint_url),
         (inference_cfg default_cfg get_config_file load_yaml get_checkpoint_url
            output_dir).
  split_and!.
  - rewrite Htr. apply elem_of_app. left. unfold setup_events.
    do 3 (apply elem_of_app; right). apply elem_of_app. left.
    apply list_elem_of_here.
  - rewrite Htr. apply elem_of_app. left. unfold setup_events.
    do 4 (apply elem_of_app; right).
    do 4 apply list_elem_of_further. apply list_elem_of_here.
  - intros key Hkey. rewrite lookup_training_cfg by done.
    unfold merged_cfg. rewrite lookup_union.
    destruct (load_yaml _ !! key), (default_cfg !! key); done.
  - intros key Hkey. unfold inference_cfg.
    repeat (rewrite lookup_insert_ne;
            [|intros <-; apply Hkey; unfold inference_keys;
              repeat first [apply list_elem_of_here | apply list_elem_of_further]]).
    done.
  - unfold training_cfg.
    rewrite !lookup_insert_ne by (let H := fresh in intros H; discriminate H).
    apply lookup_insert_eq.
  - unfold training_cfg. apply lookup_insert_eq.
  - unfold inference_cfg, training_cfg.
    rewrite !lookup_insert_ne by (let H := fresh in intros H; discriminate H).
    apply lookup_insert_eq.
Qed.
End NotebookMore.

Lemma run_with_dataset_bound_witness :
  demo_kernel !! "dataset" = Some (VRecords demo_labels) ∧
  merged_cfg demo_cfg demo_config_file demo_yaml !! "OUTPUT_DIR" = Some (CStr "./output") ∧
  (run_notebook demo_cfg demo_config_file demo_yaml demo_checkpoint_url
     demo_labels demo_predict demo_kernel).1 = Ok () ∧
  trace (run_notebook demo_cfg demo_config_file demo_yaml demo_checkpoint_url
           demo_labels demo_predict demo_kernel).2
  = setup_events demo_cfg demo_config_file demo_yaml demo_checkpoint_url "./output"
    ++ [PickleLoad "labels.pkl"] ++ image_events demo_labels
    ++ [PickleDump [demo_arrays; demo_arrays] "predictions.pkl"].
Proof.
  assert (demo_kernel !! "dataset" = Some (VRecords demo_labels)) as Hg
    by (vm_compute; reflexivity).
  assert (merged_cfg demo_cfg demo_config_file demo_yaml !! "OUTPUT_DIR"
          = Some (CStr "./output")) as Hout by (vm_compute; reflexivity).
  split_and!; [done|done|..];
    apply (run_with_dataset_bound demo_cfg demo_config_file demo_yaml
             demo_checkpoint_url demo_labels demo_predict demo_kernel demo_labels
             [demo_arrays; demo_arrays] "./output" Hg Hout);
    (constructor;
      [exists "000000397133.png", ins_two_classes; split_and!; vm_compute; reflexivity|]);
    (constructor;
      [exists "000000037777.png", ins_two_classes; split_and!; vm_compute; reflexivity|]);
    constructor.
Defined.

Lemma predictions_written_last_witness :
  merged_cfg demo_cfg demo_config_file demo_yaml !! "OUTPUT_DIR" = Some (CStr "./output") ∧
  (run_notebook demo_cfg demo_config_file demo_yaml demo_checkpoint_url
     demo_labels demo_predict demo_kernel).1 = Ok () ∧
  "predictions.pkl" = "predictions.pkl" ∧
  last (trace (run_notebook demo_cfg demo_config_file demo_yaml demo_checkpoint_url
                 demo_labels demo_predict demo_kernel).2)
  = Some (PickleDump [demo_arrays; demo_arrays] "predictions.pkl").
Proof.
  assert (merged_cfg demo_cfg demo_config_file demo_yaml !! "OUTPUT_DIR"
          = Some (CStr "./output")) as Hout by (vm_compute; reflexivity).
  split; [done|].
  apply (predictions_written_last demo_cfg demo_config_file demo_yaml
           demo_checkpoint_url demo_labels demo_predict demo_kernel "./output"
           [demo_arrays; demo_arrays] "predictions.pkl" Hout).
  apply list_elem_of_In. vm_compute.
  repeat first [left; reflexivity | right].
Defined.

Lemma predictor_built_after_training_witness :
  merged_cfg demo_cfg demo_config_file demo_yaml !! "OUTPUT_DIR" = Some (CStr "./output") ∧
  ∃ pre cfg post,
    trace (run_notebook demo_cfg demo_config_file demo_yaml demo_checkpoint_url
             demo_labels demo_predict ∅).2
    = pre ++ [Train] ++ post ∧
    existsb uses_predictor pre = false ∧
    existsb is_trainer_event post = false ∧
    NewPredictor cfg ∈ post ∧
    cfg !! "MODEL.WEIGHTS" = Some (CStr (os_path_join "./output" "model_final.pth")).
Proof.
  assert (merged_cfg demo_cfg demo_config_file demo_yaml !! "OUTPUT_DIR"
          = Some (CStr "./output")) as Hout by (vm_compute; reflexivity).
  split; [done|].
  exact (predictor_built_after_training demo_cfg demo_config_file demo_yaml
           demo_checkpoint_url demo_labels demo_predict ∅ "./output" Hout).
Defined.

Lemma configurations_handed_over_witness :
  merged_cfg demo_cfg demo_config_file demo_yaml !! "OUTPUT_DIR" = Some (CStr "./output") ∧
  ∃ cfg_t cfg_p,
    NewTrainer cfg_t ∈ trace (run_notebook demo_cfg demo_config_file demo_yaml
                                demo_checkpoint_url demo_labels demo_predict ∅).2 ∧
    NewPredictor cfg_p ∈ trace (run_notebook demo_cfg demo_config_file demo_yaml
                                  demo_checkpoint_url demo_labels demo_predict ∅).2 ∧
    (∀ key, key ∉ training_keys →
       cfg_t !! key = match demo_yaml (demo_config_file zoo_yaml) !! key with
                      | Some v => Some v
                      | None => demo_cfg !! key
                      end) ∧
    (∀ key, key ∉ inference_keys → cfg_p !! key = cfg_t !! key) ∧
    cfg_t !! "MODEL.WEIGHTS" = Some (CStr (demo_checkpoint_url zoo_yaml)) ∧
    cfg_t !! "MODEL.ROI_HEADS.NUM_CLASSES" = Some (CInt 5) ∧
    cfg_p !! "MODEL.ROI_HEADS.NUM_CLASSES" = Some (CInt 5).
Proof.
  assert (merged_cfg demo_cfg demo_config_file demo_yaml !! "OUTPUT_DIR"
          = Some (CStr "./output")) as Hout by (vm_compute; reflexivity).
  split; [done|].
  exact (configurations_handed_over demo_cfg demo_config_file demo_yaml
           demo_checkpoint_url demo_labels demo_predict ∅ "./output" Hout).
Defined.

(** ** Image files read by the last cell *)

Lemma replace_png_no_dot (name : string) :
  mentions "." name = false →
  str_replace name ".png" ".jpg" = name.
Proof.
  unfold str_replace. induction name as [|c name IH]; [done|].
  cbn [mentions]. intros [Hc Hname]%orb_false_elim.
  apply bool_decide_eq_false in Hc.
  cbn [replace_from String.prefix].
  destruct (ascii_dec "." c) as [Heq|_]; [by destruct Hc|]. by rewrite IH.
Qed.

Lemma replace_png_suffix (name : string) :
  mentions "." name = false →
  str_replace (name +:+ ".png") ".png" ".jpg" = name +:+ ".jpg".
Proof.
  unfold str_replace. induction name as [|c name IH]; [done|].
  cbn [mentions]. intros [Hc Hname]%orb_false_elim.
  apply bool_decide_eq_false in Hc.
  change (String c name +:+ ".png") with (String c (name +:+ ".png")).
  change (String c name +:+ ".jpg") with (String c (name +:+ ".jpg")).
  cbn [replace_from String.prefix].
  destruct (ascii_dec "." c) as [Heq|_]; [by destruct Hc|]. by rewrite IH.
Qed.

Lemma join_val_path (file : string) :
  String.prefix "/" file = false →
  os_path_join "../data/coco/val2017" file = "../data/coco/val2017/" +:+ file.
Proof. intros Hrel. unfold os_path_join. rewrite Hrel. reflexivity. Qed.

(** A label entry [name.png], with no other dot in [name] and [name] not
    starting with a slash, is read from [name.jpg] in the validation image
    directory. *)
Theorem image_path_png (name : string) :
  mentions "." name = false →
  String.prefix "/" name = false →
  image_path (name +:+ ".png") = "../data/coco/val2017/" +:+ name +:+ ".jpg".
Proof.
  intros Hdot Hrel. unfold image_path.
  rewrite replace_png_suffix by done. apply join_val_path.
  destruct name as [|c name]; [done|].
  change (String c name +:+ ".jpg") with (String c (name +:+ ".jpg")).
  cbn [String.prefix] in *.
  destruct (ascii_dec "/" c); [|done]. by destruct name.
Qed.

(** A label entry without any dot keeps its name: only [.png] is
    rewritten, no extension is added. *)
Theorem image_path_no_extension (name : string) :
  mentions "." name = false →
  String.prefix "/" name = false →
  image_path name = "../data/coco/val2017/" +:+ name.
Proof.
  intros Hdot Hrel. unfold image_path.
  rewrite replace_png_no_dot by done. by apply join_val_path.
Qed.

Lemma image_path_png_witness :
  mentions "." "000000397133" = false ∧
  String.prefix "/" "000000397133" = false ∧
  image_path "000000397133.png" = "../data/coco/val2017/000000397133.jpg".
Proof.
  split_and!; [reflexivity|reflexivity|].
  exact (image_path_png "000000397133" eq_refl eq_refl).
Defined.

Lemma image_path_no_extension_witness :
  mentions "." "000000397133" = false ∧
  String.prefix "/" "000000397133" = false ∧
  image_path "000000397133" = "../data/coco/val2017/000000397133".
Proof.
  split_and!; [reflexivity|reflexivity|].
  exact (image_path_no_extension "000000397133" eq_refl eq_refl).
Defined.
